(** * chemprop/models/model.py: the molecule model and its assembly

    A shallow embedding of [MoleculeModel] (its constructor, [create_encoder],
    [create_ffn], [featurize], [forward]) and of [build_model].

    Python integers are [Z], the dropout probability is a rational, the
    [argparse.Namespace] is a record, an attribute that may be absent is an
    [option], an exception is the [Raise] case of [Result].  The tensor
    framework and the collaborators the file imports ([MPN],
    [get_activation_function], [initialize_weights]) are an interface, the
    class [Torch], with the shape laws of the framework; [RealTorch] is an
    instance of it over the real numbers. *)

From Stdlib Require Import ZArith QArith List String Bool Lia.
From Stdlib Require Import Reals Lra Epsilon.
Import ListNotations.
Local Open Scope Z_scope.

(* ------------------------------------------------------------------ *)
(** ** Exceptions and results *)

Inductive Exn : Type :=
| AssertionError
| AttributeError (attr : string)
| ValueError
| TypeError
| ZeroDivisionError
| RuntimeError
| IndexError.

Inductive Result (A : Type) : Type :=
| Ok (a : A)
| Raise (e : Exn).
Arguments Ok {A} a.
Arguments Raise {A} e.

(** A small monad class: [Result] for assembly, [Run] for calls of a model. *)
Class Monad (m : Type -> Type) : Type := {
  ret : forall {A}, A -> m A;
  bind : forall {A B}, m A -> (A -> m B) -> m B
}.

Notation "x <- c ;; k" := (bind c (fun x => k))
  (at level 61, c at next level, right associativity).

#[export] Instance Result_Monad : Monad Result := {
  ret := fun A a => Ok a;
  bind := fun A B c k => match c with Ok a => k a | Raise e => Raise e end
}.

(** Python's [for _ in range(n): acc = body(acc)]: no round when [n <= 0]. *)
Fixpoint for_range_nat {A} (n : nat) (body : A -> Result A) (acc : A) : Result A :=
  match n with
  | O => Ok acc
  | S n' => acc' <- body acc ;; for_range_nat n' body acc'
  end.

Definition for_range {A} (n : Z) (body : A -> Result A) (acc : A) : Result A :=
  for_range_nat (Z.to_nat n) body acc.

(* ------------------------------------------------------------------ *)
(** ** The configuration: [args : Namespace] *)

Module Namespace.
(** The attributes of [args] that model.py reads or writes.  [output_size]
    is no command-line argument: [build_model] sets it, so it may be absent
    before. *)
Record t : Type := {
  num_tasks : Z;
  dataset_type : string;
  multiclass_num_classes : Z;
  featurizer : bool;
  features_only : bool;
  features_size : Z;
  hidden_size : Z;
  use_input_features : bool;
  features_dim : Z;
  dropout : Q;
  activation : string;
  ffn_num_layers : Z;
  ffn_hidden_size : Z;
  output_size : option Z
}.

(** [args.output_size = v] *)
Definition set_output_size (v : Z) (a : t) : t :=
  {| num_tasks := num_tasks a;
     dataset_type := dataset_type a;
     multiclass_num_classes := multiclass_num_classes a;
     featurizer := featurizer a;
     features_only := features_only a;
     features_size := features_size a;
     hidden_size := hidden_size a;
     use_input_features := use_input_features a;
     features_dim := features_dim a;
     dropout := dropout a;
     activation := activation a;
     ffn_num_layers := ffn_num_layers a;
     ffn_hidden_size := ffn_hidden_size a;
     output_size := Some v |}.

(** [args.featurizer = v] *)
Definition set_featurizer (v : bool) (a : t) : t :=
  {| num_tasks := num_tasks a;
     dataset_type := dataset_type a;
     multiclass_num_classes := multiclass_num_classes a;
     featurizer := v;
     features_only := features_only a;
     features_size := features_size a;
     hidden_size := hidden_size a;
     use_input_features := use_input_features a;
     features_dim := features_dim a;
     dropout := dropout a;
     activation := activation a;
     ffn_num_layers := ffn_num_layers a;
     ffn_hidden_size := ffn_hidden_size a;
     output_size := output_size a |}.

(** [args.output_size] read: an AttributeError when it was never set. *)
Definition get_output_size (a : t) : Result Z :=
  match output_size a with
  | Some v => Ok v
  | None => Raise (AttributeError "output_size")
  end.
End Namespace.

(* ------------------------------------------------------------------ *)
(** ** The modules of the feed-forward head *)

(** What [create_ffn] puts in its list: [nn.Dropout(p)], the activation
    module, [nn.Linear(in_features, out_features)]. *)
Inductive nnModule (Act : Type) : Type :=
| Dropout (p : Q)
| ActivationFn (a : Act)
| Linear (in_features out_features : Z).
Arguments Dropout {Act} p.
Arguments ActivationFn {Act} a.
Arguments Linear {Act} in_features out_features.

(** [nn.Dropout(p)] raises a ValueError unless [0 <= p <= 1]. *)
Definition nn_Dropout {Act} (p : Q) : Result (nnModule Act) :=
  if (Qle_bool 0 p && Qle_bool p 1)%bool then Ok (Dropout p) else Raise ValueError.

(** The width a module gives to an input of width [w]. *)
Definition module_width {Act} (m : nnModule Act) (w : Z) : Z :=
  match m with
  | Linear _ o => o
  | _ => w
  end.

Definition stack_width {Act} (ms : list (nnModule Act)) (w : Z) : Z :=
  fold_left (fun w m => module_width m w) ms w.

(* ------------------------------------------------------------------ *)
(** ** Shapes: what [Tensor.reshape] infers *)

Definition numel (s : list Z) : Z := fold_right Z.mul 1 s.

(** The shape [reshape] gives to [numel] elements for the requested [target],
    which may hold one [-1]; [None] is a RuntimeError.  The missing size is
    [numel / rest], where [rest] is the product of the other sizes, it must
    divide [numel], and a [rest] of zero leaves the size ambiguous. *)
Definition infer_size (target : list Z) (n : Z) : option (list Z) :=
  if existsb (fun d => d <? -1) target then None
  else
    let known := filter (fun d => negb (d =? -1)) target in
    let rest := numel known in
    match (List.length target - List.length known)%nat with
    | O => if n =? rest then Some target else None
    | S O =>
        if ((0 <? rest) && (n mod rest =? 0))%bool
        then Some (map (fun d => if d =? -1 then n / rest else d) target)
        else None
    | _ => None
    end.

(* ------------------------------------------------------------------ *)
(** ** The tensor framework and the imported collaborators *)

(** What model.py takes from outside: torch's tensors and functions, and
    [MPN], [get_activation_function] and [initialize_weights] of chemprop,
    whose code is in other files.  Parameter tensors live in a store
    [Weights] (the state dict: the head's module [k] owns the entries
    [ffn.k.weight] and [ffn.k.bias]), which a call of the model reads; [Rng] is
    the state of the random generator, which dropout advances in training
    mode.  The laws are the shape rules of the framework, and that no tensor
    of a negative size is allocated. *)
Class Torch : Type := {
  Tensor : Type;
  Input : Type;
  Weights : Type;
  Rng : Type;
  Activation : Type;
  Encoder : Type;
  (** chemprop.nn_utils.get_activation_function: the activation module of a
      name, a ValueError for an unsupported name *)
  get_activation_function : string -> Result Activation;
  (** chemprop.models.mpn.MPN: the encoder built from [args], which it reads *)
  MPN : Namespace.t -> Result Encoder;
  (** chemprop.nn_utils.initialize_weights: the parameters it gives to the
      assembled encoder and head, or what it raises *)
  initialize_weights : Encoder -> list (nnModule Activation) -> Result Weights;
  (** [nn.Linear(i, o)] allocates a weight of [o] by [i] entries and a bias
      of [o]: what that raises, if it raises (a size that is no machine
      integer, a negative size, too little memory) *)
  nn_Linear_raises : Z -> Z -> option Exn;
  (** a call of the encoder, in training mode or not *)
  encoder_forward : Encoder -> Weights -> bool -> Input -> Rng -> Result (Tensor * Rng);
  (** [Tensor.size()] *)
  size : Tensor -> list Z;
  (** [F.linear] with the parameters of the head's module [k] *)
  F_linear : Weights -> nat -> Z -> Z -> Tensor -> Result Tensor;
  (** a call of the activation module *)
  F_activation : Activation -> Weights -> Tensor -> Tensor;
  (** [F.dropout(x, p, training=True)] *)
  F_dropout : Q -> Tensor -> Rng -> Tensor * Rng;
  (** [torch.sigmoid] *)
  torch_sigmoid : Tensor -> Tensor;
  (** [F.softmax(x, dim)] *)
  F_softmax : Tensor -> Z -> Result Tensor;
  (** [Tensor.reshape(shape)] *)
  reshape : Tensor -> list Z -> Result Tensor;

  nn_Linear_nonneg : forall i o,
    nn_Linear_raises i o = None -> 0 <= i /\ 0 <= o;
  F_linear_size : forall th k i o x y,
    F_linear th k i o x = Ok y ->
    exists lead, size x = lead ++ [i] /\ size y = lead ++ [o];
  F_activation_size : forall a th x, size (F_activation a th x) = size x;
  F_dropout_size : forall p x g, size (fst (F_dropout p x g)) = size x;
  torch_sigmoid_size : forall x, size (torch_sigmoid x) = size x;
  F_softmax_size : forall x d,
    0 <= d < Z.of_nat (List.length (size x)) ->
    exists y, F_softmax x d = Ok y /\ size y = size x;
  reshape_size : forall x target s,
    infer_size target (numel (size x)) = Some s ->
    exists y, reshape x target = Ok y /\ size y = s
}.

(** The modules [__init__] may register for the output. *)
Inductive nnSigmoid : Type := Sigmoid.
Inductive nnSoftmax : Type := Softmax (dim : Z).

Section Model.
Context {T : Torch}.

(** A call of the model: it may raise, and it advances the generator. *)
Definition Run (A : Type) : Type := Rng -> Result (A * Rng).

#[export] Instance Run_Monad : Monad Run := {
  ret := fun A a g => Ok (a, g);
  bind := fun A B c k g =>
    match c g with
    | Ok (a, g') => k a g'
    | Raise e => Raise e
    end
}.

Definition lift {A} (r : Result A) : Run A :=
  fun g => match r with Ok a => Ok (a, g) | Raise e => Raise e end.

(** [self.<name>] of an attribute that may not be set yet. *)
Definition getattr {A} (name : string) (v : option A) : Result A :=
  match v with
  | Some a => Ok a
  | None => Raise (AttributeError name)
  end.

(** [nn.Linear(i, o)]: the module, unless allocating its parameters raises. *)
Definition nn_Linear (i o : Z) : Result (nnModule Activation) :=
  match nn_Linear_raises i o with
  | Some e => Raise e
  | None => Ok (Linear i o)
  end.

(** The attributes of a [MoleculeModel]; [training] is [nn.Module]'s run
    mode, true from construction on. *)
Record MoleculeModel : Type := {
  training : bool;
  featurizer : bool;
  classification : bool;
  multiclass : bool;
  sigmoid : option nnSigmoid;
  multiclass_softmax : option nnSoftmax;
  num_classes : option Z;
  encoder : option Encoder;
  ffn : option (list (nnModule Activation))
}.

Definition set_sigmoid (v : nnSigmoid) (self : MoleculeModel) : MoleculeModel :=
  {| training := training self; featurizer := featurizer self;
     classification := classification self; multiclass := multiclass self;
     sigmoid := Some v; multiclass_softmax := multiclass_softmax self;
     num_classes := num_classes self; encoder := encoder self; ffn := ffn self |}.

Definition set_multiclass_softmax (v : nnSoftmax) (self : MoleculeModel) : MoleculeModel :=
  {| training := training self; featurizer := featurizer self;
     classification := classification self; multiclass := multiclass self;
     sigmoid := sigmoid self; multiclass_softmax := Some v;
     num_classes := num_classes self; encoder := encoder self; ffn := ffn self |}.

Definition set_num_classes (v : Z) (self : MoleculeModel) : MoleculeModel :=
  {| training := training self; featurizer := featurizer self;
     classification := classification self; multiclass := multiclass self;
     sigmoid := sigmoid self; multiclass_softmax := multiclass_softmax self;
     num_classes := Some v; encoder := encoder self; ffn := ffn self |}.

Definition set_encoder (v : Encoder) (self : MoleculeModel) : MoleculeModel :=
  {| training := training self; featurizer := featurizer self;
     classification := classification self; multiclass := multiclass self;
     sigmoid := sigmoid self; multiclass_softmax := multiclass_softmax self;
     num_classes := num_classes self; encoder := Some v; ffn := ffn self |}.

Definition set_ffn (v : list (nnModule Activation)) (self : MoleculeModel) : MoleculeModel :=
  {| training := training self; featurizer := featurizer self;
     classification := classification self; multiclass := multiclass self;
     sigmoid := sigmoid self; multiclass_softmax := multiclass_softmax self;
     num_classes := num_classes self; encoder := encoder self; ffn := Some v |}.

(** [model.train(mode)]; [model.eval()] is [train false]. *)
Definition train (mode : bool) (self : MoleculeModel) : MoleculeModel :=
  {| training := mode; featurizer := featurizer self;
     classification := classification self; multiclass := multiclass self;
     sigmoid := sigmoid self; multiclass_softmax := multiclass_softmax self;
     num_classes := num_classes self; encoder := encoder self; ffn := ffn self |}.

(** [MoleculeModel.__init__(featurizer, classification, multiclass)] *)
Definition __init__ (featurizer classification multiclass : bool) : Result MoleculeModel :=
  if (classification && multiclass)%bool then Raise AssertionError
  else
    let self :=
      {| training := true; featurizer := featurizer;
         classification := classification; multiclass := multiclass;
         sigmoid := None; multiclass_softmax := None;
         num_classes := None; encoder := None; ffn := None |} in
    if featurizer then Ok self
    else
      let self := if classification then set_sigmoid Sigmoid self else self in
      let self := if multiclass then set_multiclass_softmax (Softmax 2) self else self in
      Ok self.

(** [MoleculeModel.create_encoder(args)] *)
Definition create_encoder (self : MoleculeModel) (args : Namespace.t) : Result MoleculeModel :=
  e <- MPN args ;;
  ret (set_encoder e self).

(** The width of the head's input, as [create_ffn] computes it. *)
Definition first_linear_dim (args : Namespace.t) : Z :=
  if Namespace.features_only args then Namespace.features_size args
  else
    let first_linear_dim := Namespace.hidden_size args in
    if Namespace.use_input_features args
    then first_linear_dim + Namespace.features_dim args
    else first_linear_dim.

(** [MoleculeModel.create_ffn(args)] *)
Definition create_ffn (self : MoleculeModel) (args : Namespace.t) : Result MoleculeModel :=
  let self :=
    if multiclass self
    then set_num_classes (Namespace.multiclass_num_classes args) self
    else self in
  let first_linear_dim := first_linear_dim args in
  dropout <- nn_Dropout (Namespace.dropout args) ;;
  activation <- get_activation_function (Namespace.activation args) ;;
  ffn <-
    (if Namespace.ffn_num_layers args =? 1 then
       output_size <- Namespace.get_output_size args ;;
       l <- nn_Linear first_linear_dim output_size ;;
       ret [dropout; l]
     else
       l <- nn_Linear first_linear_dim (Namespace.ffn_hidden_size args) ;;
       ffn <- for_range (Namespace.ffn_num_layers args - 2)
                (fun ffn =>
                   l <- nn_Linear (Namespace.ffn_hidden_size args)
                                  (Namespace.ffn_hidden_size args) ;;
                   ret (ffn ++ [ActivationFn activation; dropout; l]))
                [dropout; l] ;;
       if negb (featurizer self) then
         output_size <- Namespace.get_output_size args ;;
         l <- nn_Linear (Namespace.ffn_hidden_size args) output_size ;;
         ret (ffn ++ [ActivationFn activation; dropout; l])
       else ret ffn) ;;
  ret (set_ffn ffn self).

(** A call of the head's module [k] on [x]. *)
Definition module_forward (th : Weights) (training : bool) (k : nat)
    (m : nnModule Activation) (x : Tensor) : Run Tensor :=
  match m with
  | Dropout p => if training then (fun g => Ok (F_dropout p x g)) else ret x
  | ActivationFn a => ret (F_activation a th x)
  | Linear i o => lift (F_linear th k i o x)
  end.

(** [nn.Sequential.forward]: the modules in order, [k] the index of the
    first. *)
Fixpoint Sequential_forward (th : Weights) (training : bool) (k : nat)
    (ms : list (nnModule Activation)) (x : Tensor) : Run Tensor :=
  match ms with
  | [] => ret x
  | m :: ms' =>
      y <- module_forward th training k m x ;;
      Sequential_forward th training (S k) ms' y
  end.

(** [MoleculeModel.featurize(input)]: [self.ffn[:-1]] keeps every module but
    the last, under its index. *)
Definition featurize (self : MoleculeModel) (th : Weights) (input : Input) : Run Tensor :=
  ffn <- lift (getattr "ffn" (ffn self)) ;;
  let fnn_without_last_layer := removelast ffn in
  encoder <- lift (getattr "encoder" (encoder self)) ;;
  e <- encoder_forward encoder th (training self) input ;;
  Sequential_forward th (training self) 0 fnn_without_last_layer e.

(** [output.size(0)] *)
Definition size0 (x : Tensor) : Result Z :=
  match size x with
  | d :: _ => Ok d
  | [] => Raise IndexError
  end.

(** [MoleculeModel.forward(input)] *)
Definition forward (self : MoleculeModel) (th : Weights) (input : Input) : Run Tensor :=
  ffn <- lift (getattr "ffn" (ffn self)) ;;
  encoder <- lift (getattr "encoder" (encoder self)) ;;
  e <- encoder_forward encoder th (training self) input ;;
  output <- Sequential_forward th (training self) 0 ffn e ;;
  if featurizer self then ret output
  else
    output <-
      (if (classification self && negb (training self))%bool then
         _ <- lift (getattr "sigmoid" (sigmoid self)) ;;
         ret (torch_sigmoid output)
       else ret output) ;;
    if multiclass self then
      batch <- lift (size0 output) ;;
      num_classes <- lift (getattr "num_classes" (num_classes self)) ;;
      output <- lift (reshape output [batch; -1; num_classes]) ;;
      if negb (training self) then
        sm <- lift (getattr "multiclass_softmax" (multiclass_softmax self)) ;;
        lift (F_softmax output (let 'Softmax dim := sm in dim))
      else ret output
    else ret output.

(** [build_model(args)]: the model, the parameters [initialize_weights]
    leaves in it, and [args] as the call leaves it. *)
Definition build_model (args : Namespace.t)
  : Result (MoleculeModel * Weights * Namespace.t) :=
  let output_size := Namespace.num_tasks args in
  let args := Namespace.set_output_size output_size args in
  args <-
    (if (Namespace.dataset_type args =? "multiclass")%string then
       v <- Namespace.get_output_size args ;;
       ret (Namespace.set_output_size (v * Namespace.multiclass_num_classes args) args)
     else ret args) ;;
  model <- __init__ (Namespace.featurizer args)
                    (Namespace.dataset_type args =? "classification")%string
                    (Namespace.dataset_type args =? "multiclass")%string ;;
  model <- create_encoder model args ;;
  model <- create_ffn model args ;;
  e <- getattr "encoder" (encoder model) ;;
  ms <- getattr "ffn" (ffn model) ;;
  th <- initialize_weights e ms ;;
  ret (model, th, args).

End Model.

(* ------------------------------------------------------------------ *)
(** ** An instance: dense tensors over the real numbers *)

Module RealTorch.

(** A tensor: its shape and its entries in row-major order. *)
Record tensor : Type := { shape : list Z; data : list R }.

(** The parameters of one [nn.Linear]: the rows of its weight (one per
    output) and its bias. *)
Record linear_params : Type := { weight : list (list R); bias : list R }.

Inductive activation : Type := ReLU | LeakyReLU | Tanh.

Local Open Scope R_scope.

Definition dot (u v : list R) : R :=
  fold_right Rplus 0 (map (fun p => fst p * snd p) (combine u v)).

(** Row [r] of a tensor whose last size is [w]. *)
Definition row (w : nat) (x : tensor) (r : nat) : list R :=
  firstn w (skipn (r * w) (data x)).

(** [x W^T + b] on every row of [x]. *)
Definition affine (p : linear_params) (v : list R) : list R :=
  map (fun wb => dot (fst wb) v + snd wb) (combine (weight p) (bias p)).

Definition well_shaped (p : linear_params) (i o : Z) : bool :=
  ((Z.of_nat (List.length (weight p)) =? o)%Z
   && (Z.of_nat (List.length (bias p)) =? o)%Z
   && forallb (fun wr => (Z.of_nat (List.length wr) =? i)%Z) (weight p))%bool.

Definition linear (th : nat -> linear_params) (k : nat) (i o : Z) (x : tensor)
  : Result tensor :=
  match shape x with
  | [] => Raise RuntimeError
  | _ :: _ =>
      if ((last (shape x) 0%Z =? i)%Z && well_shaped (th k) i o)%bool then
        let lead := removelast (shape x) in
        Ok {| shape := lead ++ [o];
              data := flat_map (fun r => affine (th k) (row (Z.to_nat i) x r))
                        (seq 0 (Z.to_nat (numel lead))) |}
      else Raise RuntimeError
  end.

Definition pointwise (f : R -> R) (x : tensor) : tensor :=
  {| shape := shape x; data := map f (data x) |}.

Definition activate (a : activation) (v : R) : R :=
  match a with
  | ReLU => Rmax 0 v
  | LeakyReLU => Rmax 0 v + (1 / 10) * Rmin 0 v
  | Tanh => tanh v
  end.

(** The entries [torch.sigmoid] returns for the entries it is given: the
    framework's values, rounding included.  They are left open: the function
    is one of the functions on lists, and nothing more is known of it. *)
Definition sigmoid_entries : list R -> list R :=
  epsilon (inhabits (fun l : list R => l)) (fun _ => True).

Definition sigmoid (x : tensor) : tensor :=
  {| shape := shape x; data := sigmoid_entries (data x) |}.

(** The entries [F.softmax] returns along axis [d] of a tensor of the given
    shape and entries: the framework's values, left open as well. *)
Definition softmax_entries : nat -> list Z -> list R -> list R :=
  epsilon (inhabits (fun (_ : nat) (_ : list Z) (l : list R) => l)) (fun _ => True).

(** Dropout with the keep/drop draws taken from the generator, one per
    entry; a kept entry is scaled by [1 / (1 - p)]. *)
Fixpoint drop (p : R) (l : list R) (g : list bool) : list R * list bool :=
  match l with
  | [] => ([], g)
  | v :: l' =>
      match g with
      | [] => let (r, g') := drop p l' [] in (v / (1 - p) :: r, g')
      | keep :: g1 =>
          let (r, g') := drop p l' g1 in
          ((if keep then v / (1 - p) else 0) :: r, g')
      end
  end.

Definition dropout (p : Q) (x : tensor) (g : list bool) : tensor * list bool :=
  ({| shape := shape x; data := fst (drop (Q2R p) (data x) g) |},
   snd (drop (Q2R p) (data x) g)).

(** [F.softmax(x, d)]: an axis the tensor does not have is an IndexError. *)
Definition softmax (x : tensor) (d : Z) : Result tensor :=
  let rank := Z.of_nat (List.length (shape x)) in
  if ((- rank <=? d)%Z && (d <? rank)%Z)%bool
  then Ok {| shape := shape x;
             data := softmax_entries (Z.to_nat (d mod rank)) (shape x) (data x) |}
  else Raise IndexError.

Definition view (x : tensor) (target : list Z) : Result tensor :=
  match infer_size target (numel (shape x)) with
  | Some s => Ok {| shape := s; data := data x |}
  | None => Raise RuntimeError
  end.

(** Modelled from the spec: [get_activation_function] of chemprop.nn_utils,
    which is in another file; the spec says that it gives the activation of
    a configured kind and that an unsupported name is an error.  Three of
    the kinds are given here. *)
Definition activation_of (name : string) : Result activation :=
  if (name =? "ReLU")%string then Ok ReLU
  else if (name =? "LeakyReLU")%string then Ok LeakyReLU
  else if (name =? "tanh")%string then Ok Tanh
  else Raise ValueError.

Lemma linear_size th k i o x y :
  linear th k i o x = Ok y ->
  exists lead, shape x = lead ++ [i] /\ shape y = lead ++ [o].
Proof.
  unfold linear. destruct (shape x) as [|d s] eqn:Hs; [discriminate|].
  destruct (last (d :: s) 0%Z =? i)%Z eqn:Hl; simpl; [|discriminate].
  destruct (well_shaped (th k) i o); [|discriminate].
  intros H. injection H as <-. exists (removelast (d :: s)). split; [|reflexivity].
  apply Z.eqb_eq in Hl. rewrite <- Hl.
  apply app_removelast_last. discriminate.
Qed.

Lemma softmax_size x d :
  (0 <= d < Z.of_nat (List.length (shape x)))%Z ->
  exists y, softmax x d = Ok y /\ shape y = shape x.
Proof.
  intros [H0 H1]. unfold softmax.
  replace (- Z.of_nat (List.length (shape x)) <=? d)%Z with true
    by (symmetry; apply Z.leb_le; lia).
  replace (d <? Z.of_nat (List.length (shape x)))%Z with true
    by (symmetry; apply Z.ltb_lt; lia).
  simpl. eexists. split; reflexivity.
Qed.

Lemma view_size x target s :
  infer_size target (numel (shape x)) = Some s ->
  exists y, view x target = Ok y /\ shape y = s.
Proof.
  intros H. unfold view. rewrite H. eexists. split; reflexivity.
Qed.

Section Instance.
(** Modelled from the spec: [initialize_weights] of chemprop.nn_utils and
    [MPN] of chemprop.models.mpn, which are in other files.  The spec says
    that the initialisation sets every parameter and is determined by the
    seed: [draws k] is what it leaves in the head's module [k].  It draws a
    weight with a deviation that divides by the sum of the two widths: a
    ZeroDivisionError when both are zero.  The
    encoder of the spec gives one vector of fixed width per molecule: here
    a molecule is given by that vector, and the encoder returns it. *)
Variable draws : nat -> linear_params.

(** The allocator of a machine with room for [memory] entries: a size that
    is no 64-bit integer is a TypeError, a negative size or one beyond the
    memory a RuntimeError. *)
Variable memory : Z.

Definition int64 (n : Z) : bool := ((- 2 ^ 63 <=? n) && (n <? 2 ^ 63))%Z%bool.

Definition allocation (i o : Z) : option Exn :=
  if negb (int64 i && int64 o) then Some TypeError
  else if ((i <? 0) || (o <? 0))%Z%bool then Some RuntimeError
  else if (memory <? o * i + o)%Z then Some RuntimeError
  else None.

Lemma allocation_nonneg (i o : Z) :
  allocation i o = None -> (0 <= i /\ 0 <= o)%Z.
Proof.
  unfold allocation. destruct (negb (int64 i && int64 o)); [discriminate |].
  destruct (i <? 0)%Z eqn:Ei; [discriminate |].
  destruct (o <? 0)%Z eqn:Eo; [discriminate |].
  intros _. apply Z.ltb_ge in Ei. apply Z.ltb_ge in Eo. now split.
Qed.

Definition no_fan (m : nnModule activation) : bool :=
  match m with
  | Linear i o => (i + o =? 0)%Z
  | _ => false
  end.

Definition initialise (ms : list (nnModule activation))
  : Result (nat -> linear_params) :=
  if existsb no_fan ms then Raise ZeroDivisionError else Ok draws.

#[export] Instance real_torch : Torch := {
  Tensor := tensor;
  Input := tensor;
  Weights := nat -> linear_params;
  Rng := list bool;
  Activation := activation;
  Encoder := unit;
  get_activation_function := activation_of;
  MPN := fun _ => Ok tt;
  initialize_weights := fun _ ms => initialise ms;
  nn_Linear_raises := allocation;
  encoder_forward := fun _ _ _ x g => Ok (x, g);
  size := shape;
  F_linear := linear;
  F_activation := fun a _ => pointwise (activate a);
  F_dropout := dropout;
  torch_sigmoid := sigmoid;
  F_softmax := softmax;
  reshape := view;
  nn_Linear_nonneg := allocation_nonneg;
  F_linear_size := linear_size;
  F_activation_size := fun _ _ _ => eq_refl;
  F_dropout_size := fun _ _ _ => eq_refl;
  torch_sigmoid_size := fun _ => eq_refl;
  F_softmax_size := softmax_size;
  reshape_size := view_size
}.
End Instance.

End RealTorch.

(* ------------------------------------------------------------------ *)
(** ** The head in closed form, and what the specification states *)

Section Stated.
Context {T : Torch}.

(** The modules one hidden stage adds. *)
Definition hidden_stage (act : Activation) (p : Q) (h : Z) : list (nnModule Activation) :=
  [ActivationFn act; Dropout p; Linear h h].

(** The list [create_ffn] builds, without the loop. *)
Definition head_modules (featurizer_mode : bool) (p : Q) (act : Activation)
    (depth w h out : Z) : list (nnModule Activation) :=
  if depth =? 1 then [Dropout p; Linear w out]
  else
    [Dropout p; Linear w h]
    ++ List.concat (repeat (hidden_stage act p h) (Z.to_nat (depth - 2)))
    ++ (if featurizer_mode then [] else [ActivationFn act; Dropout p; Linear h out]).

(** The stage list as the specification words it: a depth of one, or a
    depth above one; it says nothing of other depths. *)
Definition stated_head (featurizer_mode : bool) (p : Q) (act : Activation)
    (depth w h out : Z) : option (list (nnModule Activation)) :=
  if depth =? 1 then Some [Dropout p; Linear w out]
  else if 1 <? depth then
    Some ([Dropout p; Linear w h]
          ++ List.concat (repeat [ActivationFn act; Dropout p; Linear h h]
                            (Z.to_nat (depth - 2)))
          ++ (if featurizer_mode then []
              else [ActivationFn act; Dropout p; Linear h out]))
  else None.

(** The output width [build_model] leaves in [args.output_size]. *)
Definition output_width (args : Namespace.t) : Z :=
  if (Namespace.dataset_type args =? "multiclass")%string
  then Namespace.num_tasks args * Namespace.multiclass_num_classes args
  else Namespace.num_tasks args.

(** [self.ffn(self.encoder(input))], the first statement of [forward]. *)
Definition head_output (self : MoleculeModel) (th : Weights) (input : Input) : Run Tensor :=
  ffn <- lift (getattr "ffn" (ffn self)) ;;
  encoder <- lift (getattr "encoder" (encoder self)) ;;
  e <- encoder_forward encoder th (training self) input ;;
  Sequential_forward th (training self) 0 ffn e.

(** The model [build_model] assembles, written out. *)
Definition assembled (args : Namespace.t) (enc : Encoder) (act : Activation)
  : MoleculeModel :=
  let feat := Namespace.featurizer args in
  let cls := (Namespace.dataset_type args =? "classification")%string in
  let mc := (Namespace.dataset_type args =? "multiclass")%string in
  {| training := true;
     featurizer := feat;
     classification := cls;
     multiclass := mc;
     sigmoid := if (negb feat && cls)%bool then Some Sigmoid else None;
     multiclass_softmax := if (negb feat && mc)%bool then Some (Softmax 2) else None;
     num_classes := if mc then Some (Namespace.multiclass_num_classes args) else None;
     encoder := Some enc;
     ffn := Some (head_modules feat (Namespace.dropout args) act
                    (Namespace.ffn_num_layers args) (first_linear_dim args)
                    (Namespace.ffn_hidden_size args) (output_width args)) |}.

End Stated.

(* ------------------------------------------------------------------ *)
(** ** Assembly: what [create_ffn] and [build_model] return *)

Ltac unfold_monad :=
  cbn [bind ret Result_Monad Run_Monad] in *.

Section Assembly.
Context {T : Torch}.

Lemma nn_Linear_inv (i o : Z) (l : nnModule Activation) :
  nn_Linear i o = Ok l -> l = Linear i o.
Proof.
  unfold nn_Linear. destruct (nn_Linear_raises i o); congruence.
Qed.

Lemma nn_Linear_out_nonneg (i o : Z) (l : nnModule Activation) :
  nn_Linear i o = Ok l -> 0 <= o.
Proof.
  unfold nn_Linear. destruct (nn_Linear_raises i o) eqn:E; [discriminate |].
  intros _. now apply nn_Linear_nonneg in E.
Qed.

Lemma nn_Dropout_inv (p : Q) (d : nnModule Activation) :
  nn_Dropout p = Ok d -> d = Dropout p.
Proof.
  unfold nn_Dropout. destruct (_ && _)%bool; congruence.
Qed.

(** The loop of [create_ffn] appends one hidden stage per round. *)
Lemma hidden_loop_inv (act : Activation) (p : Q) (h : Z) (n : nat) :
  forall acc r,
    for_range_nat n
      (fun ffn => l <- nn_Linear h h ;; ret (ffn ++ [ActivationFn act; Dropout p; l]))
      acc = Ok r ->
    r = acc ++ List.concat (repeat (hidden_stage act p h) n).
Proof.
  induction n as [|n IH]; intros acc r H; simpl in H.
  - injection H as <-. simpl. now rewrite app_nil_r.
  - unfold_monad. destruct (nn_Linear h h) as [l|e] eqn:El; [| discriminate H].
    apply nn_Linear_inv in El. subst l.
    apply IH in H. subst r. simpl. now rewrite <- app_assoc.
Qed.

Lemma hidden_loop_ok (act : Activation) (p : Q) (h : Z) (n : nat) :
  nn_Linear h h = Ok (Linear h h) ->
  forall acc,
    for_range_nat n
      (fun ffn => l <- nn_Linear h h ;; ret (ffn ++ [ActivationFn act; Dropout p; l]))
      acc = Ok (acc ++ List.concat (repeat (hidden_stage act p h) n)).
Proof.
  intros Hh. unfold_monad. rewrite Hh.
  induction n as [|n IH]; intros acc; simpl.
  - now rewrite app_nil_r.
  - rewrite IH. simpl. now rewrite <- app_assoc.
Qed.

(** [create_ffn], when it returns: the head is [head_modules] and no other
    attribute than [ffn] and [num_classes] is written. *)
Lemma create_ffn_inv (self self' : MoleculeModel) (args : Namespace.t) :
  create_ffn self args = Ok self' ->
  exists act out,
    get_activation_function (Namespace.activation args) = Ok act
    /\ ((Namespace.output_size args = Some out /\ 0 <= out)
        \/ (Namespace.ffn_num_layers args <> 1 /\ featurizer self = true))
    /\ self' =
       set_ffn (head_modules (featurizer self) (Namespace.dropout args) act
                  (Namespace.ffn_num_layers args) (first_linear_dim args)
                  (Namespace.ffn_hidden_size args) out)
         (if multiclass self
          then set_num_classes (Namespace.multiclass_num_classes args) self
          else self).
Proof.
  unfold create_ffn. unfold_monad. intros H.
  destruct (nn_Dropout (Namespace.dropout args)) as [d|] eqn:Ed; [| discriminate H].
  apply nn_Dropout_inv in Ed. subst d.
  destruct (get_activation_function (Namespace.activation args)) as [act|] eqn:Ea;
    [| discriminate H].
  exists act. unfold head_modules.
  destruct (Namespace.ffn_num_layers args =? 1) eqn:Ed1.
  - unfold Namespace.get_output_size in H.
    destruct (Namespace.output_size args) as [out|]; [| discriminate H].
    destruct (nn_Linear (first_linear_dim args) out) as [l|] eqn:El; [| discriminate H].
    pose proof (nn_Linear_out_nonneg _ _ _ El) as Hnn.
    apply nn_Linear_inv in El. subst l. injection H as <-.
    exists out. split; [reflexivity | split; [now left | reflexivity]].
  - apply Z.eqb_neq in Ed1.
    destruct (nn_Linear (first_linear_dim args) (Namespace.ffn_hidden_size args))
      as [l|] eqn:El; [| discriminate H].
    apply nn_Linear_inv in El. subst l.
    unfold for_range in H.
    match type of H with
    | match match ?c with Ok _ => _ | Raise _ => _ end with _ => _ end = _ =>
        destruct c as [ms|] eqn:Eloop; [| discriminate H]
    end.
    apply hidden_loop_inv in Eloop. subst ms.
    assert (Hfeat :
      featurizer (if multiclass self
                  then set_num_classes (Namespace.multiclass_num_classes args) self
                  else self) = featurizer self) by (now destruct (multiclass self)).
    rewrite Hfeat in H.
    destruct (featurizer self) eqn:Ef; simpl in H.
    + injection H as <-. exists 0.
      split; [reflexivity | split; [now right |]].
      simpl. now rewrite app_nil_r.
    + unfold Namespace.get_output_size in H.
      destruct (Namespace.output_size args) as [out|]; [| discriminate H].
      destruct (nn_Linear (Namespace.ffn_hidden_size args) out) as [l|] eqn:El;
        [| discriminate H].
      pose proof (nn_Linear_out_nonneg _ _ _ El) as Hnn.
      apply nn_Linear_inv in El. subst l. injection H as <-.
      exists out. split; [reflexivity | split; [now left |]].
      reflexivity.
Qed.

(** [create_ffn] returns when the constructors it calls return. *)
Lemma create_ffn_ok (self : MoleculeModel) (args : Namespace.t)
    (act : Activation) (out : Z) :
  nn_Dropout (Act := Activation) (Namespace.dropout args)
  = Ok (Dropout (Namespace.dropout args)) ->
  get_activation_function (Namespace.activation args) = Ok act ->
  Namespace.output_size args = Some out ->
  nn_Linear (first_linear_dim args) out = Ok (Linear (first_linear_dim args) out) ->
  nn_Linear (first_linear_dim args) (Namespace.ffn_hidden_size args)
  = Ok (Linear (first_linear_dim args) (Namespace.ffn_hidden_size args)) ->
  nn_Linear (Namespace.ffn_hidden_size args) (Namespace.ffn_hidden_size args)
  = Ok (Linear (Namespace.ffn_hidden_size args) (Namespace.ffn_hidden_size args)) ->
  nn_Linear (Namespace.ffn_hidden_size args) out
  = Ok (Linear (Namespace.ffn_hidden_size args) out) ->
  create_ffn self args =
  Ok (set_ffn (head_modules (featurizer self) (Namespace.dropout args) act
                 (Namespace.ffn_num_layers args) (first_linear_dim args)
                 (Namespace.ffn_hidden_size args) out)
        (if multiclass self
         then set_num_classes (Namespace.multiclass_num_classes args) self
         else self)).
Proof.
  intros Hd Ha Ho L1 L2 L3 L4.
  pose proof (hidden_loop_ok act (Namespace.dropout args)
                (Namespace.ffn_hidden_size args)
                (Z.to_nat (Namespace.ffn_num_layers args - 2)) L3) as Hloop.
  unfold create_ffn, Namespace.get_output_size, head_modules, for_range.
  unfold_monad. rewrite Hd, Ha, Ho.
  destruct (Namespace.ffn_num_layers args =? 1).
  - now rewrite L1.
  - rewrite L2, Hloop.
    assert (Hfeat :
      featurizer (if multiclass self
                  then set_num_classes (Namespace.multiclass_num_classes args) self
                  else self) = featurizer self) by (now destruct (multiclass self)).
    rewrite Hfeat.
    destruct (featurizer self); simpl.
    + now rewrite app_nil_r.
    + rewrite L4. reflexivity.
Qed.

(** The two flags [build_model] passes to the constructor come from one
    string: they are never both set. *)
Lemma dataset_flags_exclusive (s : string) :
  ((s =? "classification")%string && (s =? "multiclass")%string)%bool = false.
Proof.
  destruct (s =? "classification")%string eqn:E; [| reflexivity].
  apply String.eqb_eq in E. now subst s.
Qed.

(** What the constructor returns for flags that are not both set. *)
Lemma init_ok (f c m : bool) :
  (c && m)%bool = false ->
  __init__ f c m =
  Ok {| training := true; featurizer := f; classification := c; multiclass := m;
        sigmoid := if (negb f && c)%bool then Some Sigmoid else None;
        multiclass_softmax := if (negb f && m)%bool then Some (Softmax 2) else None;
        num_classes := None; encoder := None; ffn := None |}.
Proof.
  destruct f, c, m; simpl; intros H; try discriminate H; reflexivity.
Qed.

(** Lines 134 to 137: [args.output_size] after them. *)
Lemma output_size_written (args : Namespace.t) :
  (let args1 := Namespace.set_output_size (Namespace.num_tasks args) args in
   if (Namespace.dataset_type args1 =? "multiclass")%string then
     v <- Namespace.get_output_size args1 ;;
     ret (Namespace.set_output_size
            (v * Namespace.multiclass_num_classes args1) args1)
   else ret args1)
  = Ok (Namespace.set_output_size (output_width args) args).
Proof.
  unfold output_width. simpl.
  destruct (Namespace.dataset_type args =? "multiclass")%string; reflexivity.
Qed.

(** In featurizer mode a head of depth other than one has no module of
    the output width. *)
Lemma head_modules_featurizer (p : Q) (act : Activation) (depth w h out out' : Z) :
  depth <> 1 ->
  head_modules true p act depth w h out = head_modules true p act depth w h out'.
Proof.
  intros Hd. unfold head_modules. apply Z.eqb_neq in Hd. now rewrite Hd.
Qed.

(** [build_model], when it returns. *)
Lemma build_model_inv (args args' : Namespace.t) (m : MoleculeModel) (th : Weights) :
  build_model args = Ok (m, th, args') ->
  args' = Namespace.set_output_size (output_width args) args
  /\ exists enc act,
       MPN args' = Ok enc
       /\ get_activation_function (Namespace.activation args) = Ok act
       /\ m = assembled args enc act
       /\ initialize_weights enc
            (head_modules (Namespace.featurizer args) (Namespace.dropout args) act
               (Namespace.ffn_num_layers args) (first_linear_dim args)
               (Namespace.ffn_hidden_size args) (output_width args)) = Ok th
       /\ (Namespace.featurizer args = false -> 0 <= output_width args).
Proof.
  unfold build_model. intros H.
  pose proof (output_size_written args) as Hw. cbv zeta in Hw, H.
  rewrite Hw in H. clear Hw.
  cbn [bind Result_Monad] in H.
  rewrite init_ok in H by apply dataset_flags_exclusive.
  unfold create_encoder in H. cbn [bind ret Result_Monad] in H.
  destruct (MPN (Namespace.set_output_size (output_width args) args)) as [enc|] eqn:Em;
    [| discriminate H].
  match type of H with
  | match create_ffn ?s ?a with _ => _ end = _ =>
      destruct (create_ffn s a) as [m'|] eqn:Ec; [| discriminate H]
  end.
  apply create_ffn_inv in Ec. destruct Ec as (act & out & Ha & Hout & ->).
  cbn in Ha, Hout.
  assert (Hm :
    head_modules (Namespace.featurizer args) (Namespace.dropout args) act
      (Namespace.ffn_num_layers args) (first_linear_dim args)
      (Namespace.ffn_hidden_size args) out
    = head_modules (Namespace.featurizer args) (Namespace.dropout args) act
        (Namespace.ffn_num_layers args) (first_linear_dim args)
        (Namespace.ffn_hidden_size args) (output_width args)).
  { destruct Hout as [[Hout _] | [Hd Hf]].
    - congruence.
    - rewrite Hf. now apply head_modules_featurizer. }
  assert (Hnn : Namespace.featurizer args = false -> 0 <= output_width args).
  { intros Hf. destruct Hout as [[Hout Hnn] | [_ Hf']]; congruence. }
  clear Hout. unfold assembled.
  change (first_linear_dim (Namespace.set_output_size (output_width args) args))
    with (first_linear_dim args) in H.
  cbn [Namespace.featurizer Namespace.dataset_type Namespace.set_output_size
       Namespace.multiclass_num_classes Namespace.dropout Namespace.ffn_num_layers
       Namespace.ffn_hidden_size featurizer multiclass set_encoder] in H.
  rewrite Hm in H. clear Hm.
  destruct (Namespace.featurizer args),
    (Namespace.dataset_type args =? "classification")%string,
    (Namespace.dataset_type args =? "multiclass")%string;
    cbn in H;
    match type of H with
    | match ?c with _ => _ end = _ => destruct c as [th'|] eqn:Ei; [| discriminate H]
    end;
    injection H as <- <- <-;
    (split; [reflexivity |]); exists enc, act; repeat (split; [assumption |]);
    (split; [reflexivity | split; [exact Ei | exact Hnn]]).
Qed.

(** [build_model] returns when the collaborators and the constructors it
    calls return. *)
Lemma build_model_ok (args : Namespace.t) (enc : Encoder) (act : Activation)
    (th : Weights) :
  MPN (Namespace.set_output_size (output_width args) args) = Ok enc ->
  nn_Dropout (Act := Activation) (Namespace.dropout args)
  = Ok (Dropout (Namespace.dropout args)) ->
  get_activation_function (Namespace.activation args) = Ok act ->
  nn_Linear (first_linear_dim args) (output_width args)
  = Ok (Linear (first_linear_dim args) (output_width args)) ->
  nn_Linear (first_linear_dim args) (Namespace.ffn_hidden_size args)
  = Ok (Linear (first_linear_dim args) (Namespace.ffn_hidden_size args)) ->
  nn_Linear (Namespace.ffn_hidden_size args) (Namespace.ffn_hidden_size args)
  = Ok (Linear (Namespace.ffn_hidden_size args) (Namespace.ffn_hidden_size args)) ->
  nn_Linear (Namespace.ffn_hidden_size args) (output_width args)
  = Ok (Linear (Namespace.ffn_hidden_size args) (output_width args)) ->
  initialize_weights enc
    (head_modules (Namespace.featurizer args) (Namespace.dropout args) act
       (Namespace.ffn_num_layers args) (first_linear_dim args)
       (Namespace.ffn_hidden_size args) (output_width args)) = Ok th ->
  build_model args =
  Ok (assembled args enc act, th,
      Namespace.set_output_size (output_width args) args).
Proof.
  intros Hm Hd Ha L1 L2 L3 L4 Hi. unfold build_model.
  pose proof (output_size_written args) as Hw. cbv zeta in Hw |- *.
  rewrite Hw. clear Hw.
  cbn [bind Result_Monad].
  rewrite init_ok by apply dataset_flags_exclusive.
  unfold create_encoder. cbn [bind ret Result_Monad]. rewrite Hm.
  rewrite (create_ffn_ok _ _ act (output_width args));
    [| exact Hd | exact Ha | reflexivity | exact L1 | exact L2 | exact L3 | exact L4].
  unfold assembled. simpl.
  change (first_linear_dim (Namespace.set_output_size (output_width args) args))
    with (first_linear_dim args).
  destruct (Namespace.featurizer args),
    (Namespace.dataset_type args =? "classification")%string,
    (Namespace.dataset_type args =? "multiclass")%string;
    simpl; simpl in Hi; rewrite Hi; reflexivity.
Qed.

End Assembly.

(* ------------------------------------------------------------------ *)
(** ** Example configurations, for the instance over the reals *)

Module Examples.
Import RealTorch.

(** The parameters in use: the head's module 1 negates its input, every
    other linear module has unit weights; all biases are zero. *)
Definition theta (k : nat) : linear_params :=
  match k with
  | 1%nat => {| weight := [[(-1)%R]]; bias := [0%R] |}
  | _ => {| weight := [[1%R]]; bias := [0%R] |}
  end.

(** The machine of the examples has room for 4096 entries. *)
Definition memory : Z := 4096.

Definition RT : Torch := real_torch theta memory.

(** Regression on three tasks, a head of depth three over width one. *)
Definition args_regression : Namespace.t :=
  {| Namespace.num_tasks := 3;
     Namespace.dataset_type := "regression";
     Namespace.multiclass_num_classes := 3;
     Namespace.featurizer := false;
     Namespace.features_only := false;
     Namespace.features_size := 0;
     Namespace.hidden_size := 1;
     Namespace.use_input_features := false;
     Namespace.features_dim := 0;
     Namespace.dropout := 0%Q;
     Namespace.activation := "ReLU";
     Namespace.ffn_num_layers := 3;
     Namespace.ffn_hidden_size := 1;
     Namespace.output_size := None |}.

(** One task, a head of depth two and of width one throughout. *)
Definition args_depth2 : Namespace.t :=
  {| Namespace.num_tasks := 1;
     Namespace.dataset_type := "regression";
     Namespace.multiclass_num_classes := 3;
     Namespace.featurizer := false;
     Namespace.features_only := false;
     Namespace.features_size := 0;
     Namespace.hidden_size := 1;
     Namespace.use_input_features := false;
     Namespace.features_dim := 0;
     Namespace.dropout := 0%Q;
     Namespace.activation := "ReLU";
     Namespace.ffn_num_layers := 2;
     Namespace.ffn_hidden_size := 1;
     Namespace.output_size := None |}.

(** A featurizer of depth one: encoder width one, three tasks. *)
Definition args_featurizer_depth1 : Namespace.t :=
  {| Namespace.num_tasks := 3;
     Namespace.dataset_type := "regression";
     Namespace.multiclass_num_classes := 3;
     Namespace.featurizer := true;
     Namespace.features_only := false;
     Namespace.features_size := 0;
     Namespace.hidden_size := 1;
     Namespace.use_input_features := false;
     Namespace.features_dim := 0;
     Namespace.dropout := 0%Q;
     Namespace.activation := "ReLU";
     Namespace.ffn_num_layers := 1;
     Namespace.ffn_hidden_size := 5;
     Namespace.output_size := None |}.

(** Binary classification on one task, a head of depth two. *)
Definition args_classification : Namespace.t :=
  {| Namespace.num_tasks := 1;
     Namespace.dataset_type := "classification";
     Namespace.multiclass_num_classes := 3;
     Namespace.featurizer := false;
     Namespace.features_only := false;
     Namespace.features_size := 0;
     Namespace.hidden_size := 1;
     Namespace.use_input_features := false;
     Namespace.features_dim := 0;
     Namespace.dropout := 0%Q;
     Namespace.activation := "ReLU";
     Namespace.ffn_num_layers := 2;
     Namespace.ffn_hidden_size := 1;
     Namespace.output_size := None |}.

(** Multiclass with two tasks and three classes, a head of depth one. *)
Definition args_multiclass : Namespace.t :=
  {| Namespace.num_tasks := 2;
     Namespace.dataset_type := "multiclass";
     Namespace.multiclass_num_classes := 3;
     Namespace.featurizer := false;
     Namespace.features_only := false;
     Namespace.features_size := 0;
     Namespace.hidden_size := 1;
     Namespace.use_input_features := false;
     Namespace.features_dim := 0;
     Namespace.dropout := 0%Q;
     Namespace.activation := "ReLU";
     Namespace.ffn_num_layers := 1;
     Namespace.ffn_hidden_size := 1;
     Namespace.output_size := None |}.

(** A batch of one molecule, encoded as the vector [1]. *)
Definition one_molecule : tensor := {| shape := [1; 1]; data := [1%R] |}.

(** Parameters for a head of one linear module from width one to width six. *)
Definition theta6 (k : nat) : linear_params :=
  {| weight := repeat [1%R] 6; bias := repeat 0%R 6 |}.

Definition RT6 : Torch := real_torch theta6 memory.

(** Parameters for a head of one linear module from width one to width three. *)
Definition theta3 (k : nat) : linear_params :=
  {| weight := repeat [1%R] 3; bias := repeat 0%R 3 |}.

Definition RT3 : Torch := real_torch theta3 memory.

(** A regression model as the constructor and [create_encoder] leave it. *)
Definition regression_self : MoleculeModel (T := RT) :=
  @Build_MoleculeModel RT true false false false None None None (Some tt) None.
End Examples.

(* ------------------------------------------------------------------ *)
(** ** The constructor *)

(** C1. [MoleculeModel.__init__] fails, with the AssertionError of its
    [assert], if and only if the classification and the multiclass flag are
    both set; for every other combination of flags it returns the model, with
    the three flags as given. *)
Theorem init_fails_iff_both_flags {T : Torch} (f c m : bool) :
  (__init__ f c m = Raise AssertionError <-> (c = true /\ m = true))
  /\ ((exists self, __init__ f c m = Ok self
                   /\ featurizer self = f /\ classification self = c
                   /\ multiclass self = m)
      <-> ~ (c = true /\ m = true)).
Proof.
  destruct f, c, m; simpl; split; split;
    try (intros [? ?]; discriminate);
    try (intros H; discriminate H);
    try (intros _; eexists; repeat split; reflexivity);
    try (intros _; split; reflexivity);
    try (intros [self [H _]] _; discriminate H);
    try (intros H; exfalso; apply H; split; reflexivity);
    try (intros [self [H _]] [? ?]; discriminate).
Qed.

(* ------------------------------------------------------------------ *)
(** ** The head that [create_ffn] builds *)

(** C3. The head [create_ffn] stores when it returns is the stated list: for
    a depth of one, dropout and one linear module from the input width to the
    output width; for a depth above one, dropout and a linear module to the
    hidden width, then [depth - 2] times (activation, dropout, linear hidden
    to hidden), then, unless the model is a featurizer, (activation, dropout,
    linear hidden to output). *)
Theorem create_ffn_builds_stated_head {T : Torch} (self self' : MoleculeModel)
    (args : Namespace.t) (act : Activation) (out : Z)
    (stages : list (nnModule Activation)) :
  create_ffn self args = Ok self' ->
  get_activation_function (Namespace.activation args) = Ok act ->
  Namespace.output_size args = Some out ->
  stated_head (featurizer self) (Namespace.dropout args) act
    (Namespace.ffn_num_layers args) (first_linear_dim args)
    (Namespace.ffn_hidden_size args) out = Some stages ->
  ffn self' = Some stages.
Proof.
  intros H Ha Ho Hs. apply create_ffn_inv in H.
  destruct H as (act' & out' & Ha' & Hout & ->).
  assert (act' = act) as -> by congruence.
  simpl. f_equal.
  assert (Hm :
    head_modules (featurizer self) (Namespace.dropout args) act
      (Namespace.ffn_num_layers args) (first_linear_dim args)
      (Namespace.ffn_hidden_size args) out'
    = head_modules (featurizer self) (Namespace.dropout args) act
        (Namespace.ffn_num_layers args) (first_linear_dim args)
        (Namespace.ffn_hidden_size args) out).
  { destruct Hout as [[Hout _] | [Hd Hf]].
    - congruence.
    - rewrite Hf. now apply head_modules_featurizer. }
  rewrite Hm. clear Hm Hout.
  unfold stated_head in Hs. unfold head_modules, hidden_stage.
  destruct (Namespace.ffn_num_layers args =? 1).
  - now injection Hs as <-.
  - destruct (1 <? Namespace.ffn_num_layers args); [| discriminate Hs].
    now injection Hs as <-.
Qed.

Lemma create_ffn_builds_stated_head_witness :
  create_ffn (T := Examples.RT) Examples.regression_self
    (Namespace.set_output_size 3 Examples.args_regression)
  = Ok (assembled (T := Examples.RT) Examples.args_regression tt RealTorch.ReLU)
  /\ ffn (assembled (T := Examples.RT) Examples.args_regression tt RealTorch.ReLU) =
     Some [Dropout 0%Q; Linear 1 1;
           ActivationFn RealTorch.ReLU; Dropout 0%Q; Linear 1 1;
           ActivationFn RealTorch.ReLU; Dropout 0%Q; Linear 1 3].
Proof.
  split; [reflexivity |].
  apply (create_ffn_builds_stated_head (T := Examples.RT) Examples.regression_self
           (assembled (T := Examples.RT) Examples.args_regression tt RealTorch.ReLU)
           (Namespace.set_output_size 3 Examples.args_regression)
           RealTorch.ReLU 3);
    reflexivity.
Defined.

(** C7. The input width of the head, the [in_features] of its first linear
    module, is [args.features_size] when [args.features_only] is set, and
    otherwise [args.hidden_size], with [args.features_dim] added when
    [args.use_input_features] is set. *)
Theorem head_input_width {T : Torch} (self self' : MoleculeModel) (args : Namespace.t) :
  create_ffn self args = Ok self' ->
  exists o rest,
    ffn self' =
    Some (Dropout (Namespace.dropout args)
          :: Linear (if Namespace.features_only args then Namespace.features_size args
                     else if Namespace.use_input_features args
                          then Namespace.hidden_size args + Namespace.features_dim args
                          else Namespace.hidden_size args) o
          :: rest).
Proof.
  intros H. apply create_ffn_inv in H. destruct H as (act & out & _ & _ & ->).
  unfold head_modules, first_linear_dim. simpl.
  destruct (Namespace.ffn_num_layers args =? 1); simpl; eexists; eexists; reflexivity.
Qed.

Lemma head_input_width_witness :
  exists o rest,
    ffn (assembled (T := Examples.RT) Examples.args_regression tt RealTorch.ReLU) =
    Some (Dropout 0%Q :: Linear 1 o :: rest).
Proof.
  apply (head_input_width (T := Examples.RT)
           Examples.regression_self
           (assembled (T := Examples.RT) Examples.args_regression tt RealTorch.ReLU)
           (Namespace.set_output_size 3 Examples.args_regression)).
  reflexivity.
Defined.

(* ------------------------------------------------------------------ *)
(** ** Widths *)

Section Widths.
Context {T : Torch}.

(** Outside featurizer mode the head ends in a linear module of the output
    width. *)
Lemma head_modules_last (p : Q) (act : Activation) (depth w h out : Z) :
  exists front i,
    head_modules false p act depth w h out = front ++ [Linear i out].
Proof.
  unfold head_modules. destruct (depth =? 1).
  - exists [Dropout p], w. reflexivity.
  - exists ([Dropout p; Linear w h]
            ++ List.concat (repeat (hidden_stage act p h) (Z.to_nat (depth - 2)))
            ++ [ActivationFn act; Dropout p]), h.
    rewrite <- !app_assoc. reflexivity.
Qed.

(** At depth one the featurizer flag changes nothing. *)
Lemma head_modules_depth1 (f : bool) (p : Q) (act : Activation) (w h out : Z) :
  head_modules f p act 1 w h out = [Dropout p; Linear w out].
Proof. reflexivity. Qed.

Lemma stack_width_app (ms1 ms2 : list (nnModule Activation)) (w : Z) :
  stack_width (ms1 ++ ms2) w = stack_width ms2 (stack_width ms1 w).
Proof. unfold stack_width. apply fold_left_app. Qed.

Lemma stack_width_hidden (act : Activation) (p : Q) (h : Z) (n : nat) :
  stack_width (List.concat (repeat (hidden_stage act p h) n)) h = h.
Proof.
  induction n as [|n IH]; [reflexivity |].
  cbn [repeat List.concat]. rewrite stack_width_app. exact IH.
Qed.

(** A featurizer head of depth above one gives the hidden width. *)
Lemma stack_width_featurizer (p : Q) (act : Activation) (depth w h out w0 : Z) :
  depth <> 1 ->
  stack_width (head_modules true p act depth w h out) w0 = h.
Proof.
  intros Hd. unfold head_modules. apply Z.eqb_neq in Hd. rewrite Hd.
  rewrite app_nil_r, stack_width_app. apply stack_width_hidden.
Qed.

End Widths.

(** C6. [build_model] leaves in [args.output_size], and gives to the last
    linear module of a head that is no featurizer's, the number of tasks for
    the dataset types regression and classification, and the number of tasks
    times the number of classes for multiclass. *)
Theorem output_width_by_dataset_type {T : Torch} (args args' : Namespace.t)
    (m : MoleculeModel) (th : Weights) :
  build_model args = Ok (m, th, args') ->
  ((Namespace.dataset_type args = "regression"%string
    \/ Namespace.dataset_type args = "classification"%string) ->
   Namespace.output_size args' = Some (Namespace.num_tasks args))
  /\ (Namespace.dataset_type args = "multiclass"%string ->
      Namespace.output_size args' =
      Some (Namespace.num_tasks args * Namespace.multiclass_num_classes args))
  /\ (Namespace.featurizer args = false ->
      exists front i out,
        Namespace.output_size args' = Some out
        /\ ffn m = Some (front ++ [Linear i out])).
Proof.
  intros H. apply build_model_inv in H.
  destruct H as (-> & enc & act & _ & _ & -> & _).
  unfold output_width. simpl. split; [| split].
  - intros [E | E]; rewrite E; reflexivity.
  - intros E. rewrite E. reflexivity.
  - intros E. rewrite E.
    destruct (head_modules_last (Namespace.dropout args) act
                (Namespace.ffn_num_layers args) (first_linear_dim args)
                (Namespace.ffn_hidden_size args) (output_width args))
      as (front & i & Hl).
    exists front, i, (output_width args). split; [reflexivity |].
    now rewrite Hl.
Qed.

Lemma output_width_by_dataset_type_witness :
  ((Namespace.dataset_type Examples.args_multiclass = "regression"%string
    \/ Namespace.dataset_type Examples.args_multiclass = "classification"%string) ->
   Namespace.output_size (Namespace.set_output_size 6 Examples.args_multiclass)
   = Some (Namespace.num_tasks Examples.args_multiclass))
  /\ (Namespace.dataset_type Examples.args_multiclass = "multiclass"%string ->
      Namespace.output_size (Namespace.set_output_size 6 Examples.args_multiclass) =
      Some (Namespace.num_tasks Examples.args_multiclass
            * Namespace.multiclass_num_classes Examples.args_multiclass))
  /\ (Namespace.featurizer Examples.args_multiclass = false ->
      exists front i out,
        Namespace.output_size (Namespace.set_output_size 6 Examples.args_multiclass)
        = Some out
        /\ ffn (assembled (T := Examples.RT6) Examples.args_multiclass tt RealTorch.ReLU)
           = Some (front ++ [Linear i out])).
Proof.
  apply (output_width_by_dataset_type (T := Examples.RT6) Examples.args_multiclass
           (Namespace.set_output_size 6 Examples.args_multiclass)
           (assembled (T := Examples.RT6) Examples.args_multiclass tt RealTorch.ReLU)
           Examples.theta6).
  reflexivity.
Defined.

(* ------------------------------------------------------------------ *)
(** ** The configuration after [build_model] *)

(** C9, as the code has it.  [build_model] writes [args.output_size] and no
    other attribute of [args]: the configuration it leaves is the one it
    received with [output_size] set to the output width. *)
Theorem build_model_writes_only_output_size {T : Torch} (args args' : Namespace.t)
    (m : MoleculeModel) (th : Weights) :
  build_model args = Ok (m, th, args') ->
  args' =
  Namespace.set_output_size
    (if (Namespace.dataset_type args =? "multiclass")%string
     then Namespace.num_tasks args * Namespace.multiclass_num_classes args
     else Namespace.num_tasks args)
    args.
Proof.
  intros H. apply build_model_inv in H. now destruct H as [-> _].
Qed.

Lemma build_model_writes_only_output_size_witness :
  Namespace.set_output_size 3 Examples.args_regression =
  Namespace.set_output_size
    (if (Namespace.dataset_type Examples.args_regression =? "multiclass")%string
     then Namespace.num_tasks Examples.args_regression
          * Namespace.multiclass_num_classes Examples.args_regression
     else Namespace.num_tasks Examples.args_regression)
    Examples.args_regression.
Proof.
  apply (build_model_writes_only_output_size (T := Examples.RT) Examples.args_regression
           (Namespace.set_output_size 3 Examples.args_regression)
           (assembled (T := Examples.RT) Examples.args_regression tt RealTorch.ReLU)
           Examples.theta).
  reflexivity.
Defined.

(** C9, as the claim states it, fails: the regression configuration has no
    [output_size] before the call and [output_size = 3] after it. *)
Lemma build_model_changes_configuration :
  exists m th args',
    build_model (T := Examples.RT) Examples.args_regression = Ok (m, th, args')
    /\ Namespace.output_size Examples.args_regression = None
    /\ Namespace.output_size args' = Some 3
    /\ args' <> Examples.args_regression.
Proof.
  eexists. eexists. eexists.
  split; [reflexivity |]. split; [reflexivity |]. split; [reflexivity |].
  discriminate.
Qed.

(* ------------------------------------------------------------------ *)
(** ** Calls of the model *)

Section Calls.
Context {T : Torch}.

(** Running a list of modules in two parts. *)
Lemma Sequential_forward_app (th : Weights) (tr : bool)
    (ms1 ms2 : list (nnModule Activation)) :
  forall k x g,
    Sequential_forward th tr k (ms1 ++ ms2) x g =
    match Sequential_forward th tr k ms1 x g with
    | Ok (y, g') => Sequential_forward th tr (k + List.length ms1) ms2 y g'
    | Raise e => Raise e
    end.
Proof.
  induction ms1 as [|m ms1 IH]; intros k x g; simpl.
  - now rewrite Nat.add_0_r.
  - destruct (module_forward th tr k m x g) as [[y g1]|e]; [| reflexivity].
    rewrite IH. now rewrite Nat.add_succ_r.
Qed.

(** A module keeps the leading sizes and sets the last as [module_width]
    says. *)
Lemma module_forward_size (th : Weights) (tr : bool) (k : nat)
    (m : nnModule Activation) (x y : Tensor) (g g' : Rng) (lead : list Z) (w : Z) :
  module_forward th tr k m x g = Ok (y, g') ->
  size x = lead ++ [w] ->
  size y = lead ++ [module_width m w].
Proof.
  intros H Hx. destruct m as [p | a | i o]; simpl in *.
  - destruct tr.
    + injection H as H. pose proof (F_dropout_size p x g) as Hs.
      rewrite H in Hs. simpl in Hs. congruence.
    + injection H as <- _. exact Hx.
  - injection H as <- _. now rewrite F_activation_size.
  - unfold lift in H. destruct (F_linear th k i o x) as [y1|] eqn:El; [| discriminate H].
    injection H as <- _. apply F_linear_size in El.
    destruct El as (lead' & Hx' & Hy). rewrite Hx in Hx'.
    apply app_inj_tail in Hx'. destruct Hx' as [-> _]. exact Hy.
Qed.

Lemma Sequential_forward_size (th : Weights) (tr : bool)
    (ms : list (nnModule Activation)) :
  forall k x g y g' lead w,
    Sequential_forward th tr k ms x g = Ok (y, g') ->
    size x = lead ++ [w] ->
    size y = lead ++ [stack_width ms w].
Proof.
  induction ms as [|m ms IH]; intros k x g y g' lead w H Hx; simpl in H.
  - injection H as <- _. exact Hx.
  - destruct (module_forward th tr k m x g) as [[y1 g1]|] eqn:Em; [| discriminate H].
    eapply IH; [exact H |]. eapply module_forward_size; eassumption.
Qed.




End Calls.

(* ------------------------------------------------------------------ *)
(** ** [forward]: classification *)

(** C4. For a classification model that is no featurizer, [forward] returns
    the sigmoid of the head's output when the model is in inference mode
    ([training] false), and the head's output itself, the logits, when it is
    in training mode. *)
Theorem forward_classification {T : Torch} (args args' : Namespace.t)
    (m : MoleculeModel) (th0 th : Weights) (mode : bool) (x : Input) (g : Rng) :
  build_model args = Ok (m, th0, args') ->
  Namespace.dataset_type args = "classification"%string ->
  Namespace.featurizer args = false ->
  forward (train mode m) th x g =
  (output <- head_output (train mode m) th x ;;
   ret (if mode then output else torch_sigmoid output)) g.
Proof.
  intros H Hd Hf. apply build_model_inv in H.
  destruct H as (_ & enc & act & _ & _ & -> & _).
  unfold forward, head_output, assembled, train.
  rewrite Hd, Hf. cbn.
  destruct (encoder_forward enc th mode x g) as [[e g1]|]; [| reflexivity].
  match goal with
  | |- context [Sequential_forward ?a ?b ?c ?d ?e ?f] =>
      destruct (Sequential_forward a b c d e f) as [[o g2]|]; [| reflexivity]
  end.
  destruct mode; reflexivity.
Qed.

Lemma forward_classification_witness :
  forward (T := Examples.RT)
    (train false (assembled (T := Examples.RT) Examples.args_classification tt RealTorch.ReLU))
    Examples.theta Examples.one_molecule [] =
  (output <- head_output (T := Examples.RT)
               (train false
                  (assembled (T := Examples.RT) Examples.args_classification tt
                     RealTorch.ReLU))
               Examples.theta Examples.one_molecule ;;
   ret (@torch_sigmoid Examples.RT output)) [].
Proof.
  apply (forward_classification (T := Examples.RT) Examples.args_classification
           (Namespace.set_output_size 1 Examples.args_classification)
           (assembled (T := Examples.RT) Examples.args_classification tt RealTorch.ReLU)
           Examples.theta Examples.theta false Examples.one_molecule []);
    reflexivity.
Defined.

(* ------------------------------------------------------------------ *)
(** ** [forward]: multiclass *)



(* ------------------------------------------------------------------ *)
(** ** [featurize] and the featurizer *)

Section Featurize.
Context {T : Torch}.

(** [self.ffn[:-1]] of a head that ends in (activation, dropout, linear). *)
Lemma removelast_final_stage (front : list (nnModule Activation))
    (a d l : nnModule Activation) :
  removelast (front ++ [a; d; l]) = front ++ [a; d].
Proof.
  rewrite removelast_app by discriminate. reflexivity.
Qed.

(** For a depth other than one, the head of a model that is no featurizer
    is the featurizer's head and one more stage. *)
Lemma head_modules_split (p : Q) (act : Activation) (depth w h out out' : Z) :
  depth <> 1 ->
  head_modules false p act depth w h out =
  head_modules true p act depth w h out'
  ++ [ActivationFn act; Dropout p; Linear h out].
Proof.
  intros Hd. unfold head_modules. apply Z.eqb_neq in Hd. rewrite Hd.
  rewrite app_nil_r. now rewrite <- app_assoc.
Qed.

Lemma head_output_eq (self : MoleculeModel) (th : Weights) (x : Input) (g : Rng)
    (enc : Encoder) (ms : list (nnModule Activation)) :
  encoder self = Some enc ->
  ffn self = Some ms ->
  head_output self th x g =
  match encoder_forward enc th (training self) x g with
  | Ok (e, g1) => Sequential_forward th (training self) 0 ms e g1
  | Raise e => Raise e
  end.
Proof.
  intros He Hm. unfold head_output. rewrite He, Hm. reflexivity.
Qed.

Lemma featurize_eq (self : MoleculeModel) (th : Weights) (x : Input) (g : Rng)
    (enc : Encoder) (ms : list (nnModule Activation)) :
  encoder self = Some enc ->
  ffn self = Some ms ->
  featurize self th x g =
  match encoder_forward enc th (training self) x g with
  | Ok (e, g1) => Sequential_forward th (training self) 0 (removelast ms) e g1
  | Raise e => Raise e
  end.
Proof.
  intros He Hm. unfold featurize. rewrite He, Hm. reflexivity.
Qed.

(** A featurizer's [forward] is the head's output: no step follows. *)
Lemma forward_featurizer (self : MoleculeModel) (th : Weights) (x : Input) (g : Rng) :
  featurizer self = true ->
  forward self th x g = head_output self th x g.
Proof.
  intros Hf. unfold forward, head_output. rewrite Hf. cbn.
  destruct (lift (getattr "ffn" (ffn self)) g) as [[ms g0]|]; [| reflexivity].
  destruct (lift (getattr "encoder" (encoder self)) g0) as [[enc g1]|]; [| reflexivity].
  destruct (encoder_forward enc th (training self) x g1) as [[e g2]|]; [| reflexivity].
  destruct (Sequential_forward th (training self) 0 ms e g2) as [[o g3]|]; reflexivity.
Qed.

End Featurize.

(** C2, as the code has it.  For a depth other than one, with the same
    encoder, the same parameters and the same run mode, [featurize] on the
    model built with [featurizer = false] is [forward] on the model built with
    [featurizer = true] followed by the activation and by dropout: of the
    final stage, [featurize] leaves out the linear module only. *)
Theorem featurize_vs_featurizer_forward {T : Torch} (args a1 a2 : Namespace.t)
    (m1 m2 : MoleculeModel) (th1 th2 th : Weights) (mode : bool) (x : Input) :
  Namespace.ffn_num_layers args <> 1 ->
  build_model (Namespace.set_featurizer false args) = Ok (m1, th1, a1) ->
  build_model (Namespace.set_featurizer true args) = Ok (m2, th2, a2) ->
  encoder m1 = encoder m2 ->
  exists act,
    get_activation_function (Namespace.activation args) = Ok act
    /\ forall g,
         featurize (train mode m1) th x g =
         (y <- forward (train mode m2) th x ;;
          z <- module_forward th mode 0 (ActivationFn act) y ;;
          module_forward th mode 0 (Dropout (Namespace.dropout args)) z) g.
Proof.
  intros Hd H1 H2 He.
  apply build_model_inv in H1. destruct H1 as (_ & enc1 & act1 & _ & Ha1 & -> & _).
  apply build_model_inv in H2. destruct H2 as (_ & enc2 & act2 & _ & Ha2 & -> & _).
  cbn in Ha1, Ha2. assert (act2 = act1) as -> by congruence.
  cbn in He. injection He as <-.
  exists act1. split; [exact Ha1 |]. intros g.
  cbn [bind Run_Monad].
  rewrite forward_featurizer by reflexivity.
  erewrite featurize_eq by reflexivity.
  erewrite head_output_eq by reflexivity.
  cbn [training train assembled Namespace.featurizer Namespace.set_featurizer
       Namespace.dropout Namespace.ffn_num_layers Namespace.ffn_hidden_size].
  change (first_linear_dim (Namespace.set_featurizer false args))
    with (first_linear_dim args).
  change (first_linear_dim (Namespace.set_featurizer true args))
    with (first_linear_dim args).
  rewrite (head_modules_split (Namespace.dropout args) act1
             (Namespace.ffn_num_layers args) (first_linear_dim args)
             (Namespace.ffn_hidden_size args)
             (output_width (Namespace.set_featurizer false args))
             (output_width (Namespace.set_featurizer true args)) Hd).
  rewrite removelast_final_stage.
  destruct (encoder_forward enc1 th mode x g) as [[e g1]|]; [| reflexivity].
  rewrite Sequential_forward_app.
  match goal with
  | |- context [Sequential_forward ?a ?b ?c ?d ?e ?f] =>
      destruct (Sequential_forward a b c d e f) as [[o g2]|]; [| reflexivity]
  end.
  cbn. destruct mode; [| reflexivity].
  now destruct (F_dropout (Namespace.dropout args) (F_activation act1 th o) g2).
Qed.

Lemma featurize_vs_featurizer_forward_witness :
  exists act,
    get_activation_function (Torch := Examples.RT)
      (Namespace.activation Examples.args_depth2) = Ok act
    /\ forall g,
         featurize (T := Examples.RT)
           (train false
              (assembled (T := Examples.RT)
                 (Namespace.set_featurizer false Examples.args_depth2) tt RealTorch.ReLU))
           Examples.theta Examples.one_molecule g =
         (y <- forward (T := Examples.RT)
                 (train false
                    (assembled (T := Examples.RT)
                       (Namespace.set_featurizer true Examples.args_depth2) tt
                       RealTorch.ReLU))
                 Examples.theta Examples.one_molecule ;;
          z <- module_forward (T := Examples.RT) Examples.theta false 0
                 (ActivationFn act) y ;;
          module_forward (T := Examples.RT) Examples.theta false 0
            (Dropout (Namespace.dropout Examples.args_depth2)) z) g.
Proof.
  apply (featurize_vs_featurizer_forward (T := Examples.RT) Examples.args_depth2
           (Namespace.set_output_size 1 (Namespace.set_featurizer false Examples.args_depth2))
           (Namespace.set_output_size 1 (Namespace.set_featurizer true Examples.args_depth2))
           (assembled (T := Examples.RT)
              (Namespace.set_featurizer false Examples.args_depth2) tt RealTorch.ReLU)
           (assembled (T := Examples.RT)
              (Namespace.set_featurizer true Examples.args_depth2) tt RealTorch.ReLU)
           Examples.theta Examples.theta Examples.theta false Examples.one_molecule);
    [simpl; lia | reflexivity | reflexivity | reflexivity].
Defined.

(** C2, as the claim states it, fails.  Depth two, inference mode, one
    molecule encoded as [1], the first linear module with weight [-1]: the
    featurizer's [forward] returns [-1], and [featurize] on the model with
    [featurizer = false], built from the same configuration with the same
    encoder and parameters, returns [ReLU(-1) = 0]. *)
Lemma featurize_differs_from_featurizer_forward :
  exists m1 m2 th a1 a2 t1 t2,
    build_model (T := Examples.RT) (Namespace.set_featurizer false Examples.args_depth2)
    = Ok (m1, th, a1)
    /\ build_model (T := Examples.RT) (Namespace.set_featurizer true Examples.args_depth2)
       = Ok (m2, th, a2)
    /\ encoder m1 = encoder m2
    /\ featurize (train false m1) th Examples.one_molecule [] = Ok (t1, [])
    /\ forward (train false m2) th Examples.one_molecule [] = Ok (t2, [])
    /\ RealTorch.data t1 = [Rmax 0 (-1 * 1 + 0 + 0)]
    /\ RealTorch.data t2 = [(-1 * 1 + 0 + 0)%R]
    /\ t1 <> t2.
Proof.
  exists (assembled (T := Examples.RT)
            (Namespace.set_featurizer false Examples.args_depth2) tt RealTorch.ReLU),
         (assembled (T := Examples.RT)
            (Namespace.set_featurizer true Examples.args_depth2) tt RealTorch.ReLU),
         Examples.theta,
         (Namespace.set_output_size 1 (Namespace.set_featurizer false Examples.args_depth2)),
         (Namespace.set_output_size 1 (Namespace.set_featurizer true Examples.args_depth2)),
         {| RealTorch.shape := [1; 1]; RealTorch.data := [Rmax 0 (-1 * 1 + 0 + 0)] |},
         {| RealTorch.shape := [1; 1]; RealTorch.data := [(-1 * 1 + 0 + 0)%R] |}.
  split; [reflexivity |]. split; [reflexivity |]. split; [reflexivity |].
  split; [reflexivity |]. split; [reflexivity |].
  split; [reflexivity |]. split; [reflexivity |].
  intros H. injection H as H. revert H.
  unfold Rmax. destruct (Rle_dec 0 (-1 * 1 + 0 + 0)); lra.
Qed.

(* ------------------------------------------------------------------ *)
(** ** Depth one *)

(** C10. For a model of depth one, [featurize] runs the encoder and then the
    dropout module only: the one linear module of the head is the module that
    [self.ffn[:-1]] leaves out.  So the features have the shape of the
    encoder's output, whose width is the input width of the head. *)
Theorem featurize_depth1 {T : Torch} (args args' : Namespace.t) (m : MoleculeModel)
    (th0 th : Weights) (mode : bool) (x : Input) (g g1 : Rng) (enc : Encoder)
    (e : Tensor) (lead : list Z) :
  Namespace.ffn_num_layers args = 1 ->
  build_model args = Ok (m, th0, args') ->
  encoder m = Some enc ->
  encoder_forward enc th mode x g = Ok (e, g1) ->
  size e = lead ++ [first_linear_dim args] ->
  featurize (train mode m) th x g =
  (e' <- encoder_forward enc th mode x ;;
   module_forward th mode 0 (Dropout (Namespace.dropout args)) e') g
  /\ exists y g2,
       featurize (train mode m) th x g = Ok (y, g2)
       /\ size y = lead ++ [first_linear_dim args].
Proof.
  intros Hd H He Hx Hs. apply build_model_inv in H.
  destruct H as (_ & enc' & act & _ & _ & -> & _).
  cbn in He. injection He as ->.
  assert (Hf : forall g0,
    featurize (train mode (assembled args enc act)) th x g0 =
    (e' <- encoder_forward enc th mode x ;;
     module_forward th mode 0 (Dropout (Namespace.dropout args)) e') g0).
  { intros g0. erewrite featurize_eq by reflexivity.
    cbn [training train assembled bind Run_Monad]. rewrite Hd, head_modules_depth1.
    cbn [removelast].
    destruct (encoder_forward enc th mode x g0) as [[e0 g2]|]; [| reflexivity].
    cbn [Sequential_forward bind ret Run_Monad].
    destruct (module_forward th mode 0 (Dropout (Namespace.dropout args)) e0 g2)
      as [[y g3]|]; reflexivity. }
  split; [apply Hf |]. rewrite Hf. cbn [bind Run_Monad]. rewrite Hx.
  destruct (module_forward th mode 0 (Dropout (Namespace.dropout args)) e g1)
    as [[y g2]|] eqn:Em.
  - exists y, g2. split; [reflexivity |].
    apply (module_forward_size _ _ _ _ _ _ _ _ lead (first_linear_dim args) Em Hs).
  - destruct mode; discriminate Em.
Qed.

Lemma featurize_depth1_witness :
  featurize (T := Examples.RT3)
    (train false
       (assembled (T := Examples.RT3) Examples.args_featurizer_depth1 tt RealTorch.ReLU))
    Examples.theta3 Examples.one_molecule [] =
  (e' <- encoder_forward (Torch := Examples.RT3) tt Examples.theta3 false
           Examples.one_molecule ;;
   module_forward (T := Examples.RT3) Examples.theta3 false 0
     (Dropout (Namespace.dropout Examples.args_featurizer_depth1)) e') []
  /\ exists y g2,
       featurize (T := Examples.RT3)
         (train false
            (assembled (T := Examples.RT3) Examples.args_featurizer_depth1 tt
               RealTorch.ReLU))
         Examples.theta3 Examples.one_molecule [] = Ok (y, g2)
       /\ size y = [1] ++ [first_linear_dim Examples.args_featurizer_depth1].
Proof.
  apply (featurize_depth1 (T := Examples.RT3) Examples.args_featurizer_depth1
           (Namespace.set_output_size 3 Examples.args_featurizer_depth1)
           (assembled (T := Examples.RT3) Examples.args_featurizer_depth1 tt RealTorch.ReLU)
           Examples.theta3 Examples.theta3 false Examples.one_molecule [] [] tt
           Examples.one_molecule [1]);
    reflexivity.
Defined.

(* ------------------------------------------------------------------ *)
(** ** Featurizer mode *)

Section FeaturizerMode.
Context {T : Torch}.

(** In featurizer mode with a depth other than one, [forward] returns the
    head's output as it is, and its width is the hidden width. *)
Lemma featurizer_forward_hidden_width (args args' : Namespace.t) (m : MoleculeModel)
    (th0 th : Weights) (mode : bool) (x : Input) (g g1 g' : Rng) (enc : Encoder)
    (e y : Tensor) (lead : list Z) (w : Z) :
  Namespace.ffn_num_layers args <> 1 ->
  Namespace.featurizer args = true ->
  build_model args = Ok (m, th0, args') ->
  encoder m = Some enc ->
  encoder_forward enc th mode x g = Ok (e, g1) ->
  size e = lead ++ [w] ->
  forward (train mode m) th x g = Ok (y, g') ->
  head_output (train mode m) th x g = Ok (y, g')
  /\ size y = lead ++ [Namespace.ffn_hidden_size args].
Proof.
  intros Hd Hf H He Hx Hs Hy. apply build_model_inv in H.
  destruct H as (_ & enc' & act & _ & _ & -> & _).
  cbn in He. injection He as ->.
  rewrite forward_featurizer in Hy by (cbn; exact Hf).
  split; [exact Hy |].
  erewrite head_output_eq in Hy by reflexivity.
  cbn [training train assembled] in Hy. rewrite Hx, Hf in Hy.
  apply (Sequential_forward_size _ _ _ _ _ _ _ _ lead w) in Hy; [| exact Hs].
  rewrite Hy. now rewrite stack_width_featurizer.
Qed.

(** At depth one the head is the same with and without the featurizer
    flag: it ends in the linear module of the output width. *)
Lemma featurizer_depth1_head (args args' : Namespace.t) (m : MoleculeModel)
    (th0 : Weights) :
  Namespace.ffn_num_layers args = 1 ->
  build_model args = Ok (m, th0, args') ->
  ffn m = Some [Dropout (Namespace.dropout args);
                Linear (first_linear_dim args) (output_width args)].
Proof.
  intros Hd H. apply build_model_inv in H.
  destruct H as (_ & enc & act & _ & _ & -> & _).
  cbn. now rewrite Hd.
Qed.

End FeaturizerMode.

(** C8, at depth one.  The featurizer of depth one over three tasks (hidden
    width five, encoder width one): its head keeps the linear module of the
    output width, and [forward] returns a tensor of width three, the output
    width. *)
Lemma featurizer_depth1_keeps_projection :
  exists m t,
    build_model (T := Examples.RT3) Examples.args_featurizer_depth1
    = Ok (m, Examples.theta3, Namespace.set_output_size 3 Examples.args_featurizer_depth1)
    /\ featurizer m = true
    /\ ffn m = Some [Dropout 0%Q; Linear 1 3]
    /\ forward (train false m) Examples.theta3 Examples.one_molecule [] = Ok (t, [])
    /\ size t = [1; 3].
Proof.
  exists (assembled (T := Examples.RT3) Examples.args_featurizer_depth1 tt RealTorch.ReLU),
         {| RealTorch.shape := [1; 3];
            RealTorch.data := repeat (1 * 1 + 0 + 0)%R 3 |}.
  repeat split; reflexivity.
Qed.

(* ------------------------------------------------------------------ *)
(** ** Further properties of the specification *)

(** Regression: [forward] returns the head's output as it is, in both run
    modes. *)
Theorem forward_regression {T : Torch} (args args' : Namespace.t)
    (m : MoleculeModel) (th0 th : Weights) (mode : bool) (x : Input) (g : Rng) :
  build_model args = Ok (m, th0, args') ->
  Namespace.dataset_type args = "regression"%string ->
  forward (train mode m) th x g = head_output (train mode m) th x g.
Proof.
  intros H Hd. apply build_model_inv in H.
  destruct H as (_ & enc & act & _ & _ & -> & _).
  unfold forward, head_output, assembled, train. rewrite Hd. cbn.
  destruct (encoder_forward enc th mode x g) as [[e g1]|]; [| reflexivity].
  match goal with
  | |- context [Sequential_forward ?a ?b ?c ?d ?e ?f] =>
      destruct (Sequential_forward a b c d e f) as [[o g2]|]; [| reflexivity]
  end.
  destruct (Namespace.featurizer args); reflexivity.
Qed.

Lemma forward_regression_witness :
  forward (T := Examples.RT)
    (train false (assembled (T := Examples.RT) Examples.args_depth2 tt RealTorch.ReLU))
    Examples.theta Examples.one_molecule [] =
  head_output (T := Examples.RT)
    (train false (assembled (T := Examples.RT) Examples.args_depth2 tt RealTorch.ReLU))
    Examples.theta Examples.one_molecule [].
Proof.
  apply (forward_regression (T := Examples.RT) Examples.args_depth2
           (Namespace.set_output_size 1 Examples.args_depth2)
           (assembled (T := Examples.RT) Examples.args_depth2 tt RealTorch.ReLU)
           Examples.theta Examples.theta false Examples.one_molecule []);
    reflexivity.
Defined.

(** [build_model] returns when every call it makes returns: [MPN],
    [nn.Dropout], [get_activation_function], [nn.Linear] at the widths of the
    configuration, and [initialize_weights].  Its own [assert] never fails,
    since the two flags come from one string, and no attribute it reads is
    missing. *)
Theorem build_model_returns {T : Torch} (args : Namespace.t)
    (enc : Encoder) (act : Activation) (th : Weights) :
  MPN (Namespace.set_output_size (output_width args) args) = Ok enc ->
  nn_Dropout (Act := Activation) (Namespace.dropout args)
  = Ok (Dropout (Namespace.dropout args)) ->
  get_activation_function (Namespace.activation args) = Ok act ->
  nn_Linear (first_linear_dim args) (output_width args)
  = Ok (Linear (first_linear_dim args) (output_width args)) ->
  nn_Linear (first_linear_dim args) (Namespace.ffn_hidden_size args)
  = Ok (Linear (first_linear_dim args) (Namespace.ffn_hidden_size args)) ->
  nn_Linear (Namespace.ffn_hidden_size args) (Namespace.ffn_hidden_size args)
  = Ok (Linear (Namespace.ffn_hidden_size args) (Namespace.ffn_hidden_size args)) ->
  nn_Linear (Namespace.ffn_hidden_size args) (output_width args)
  = Ok (Linear (Namespace.ffn_hidden_size args) (output_width args)) ->
  initialize_weights enc
    (head_modules (Namespace.featurizer args) (Namespace.dropout args) act
       (Namespace.ffn_num_layers args) (first_linear_dim args)
       (Namespace.ffn_hidden_size args) (output_width args)) = Ok th ->
  exists m args',
    build_model args = Ok (m, th, args')
    /\ featurizer m = Namespace.featurizer args
    /\ classification m = (Namespace.dataset_type args =? "classification")%string
    /\ multiclass m = (Namespace.dataset_type args =? "multiclass")%string
    /\ encoder m = Some enc.
Proof.
  intros Hm Hd Ha L1 L2 L3 L4 Hi. do 2 eexists.
  split; [apply (build_model_ok args enc act th Hm Hd Ha L1 L2 L3 L4 Hi) |].
  repeat split.
Qed.

Lemma build_model_returns_witness :
  exists m args',
    build_model (T := Examples.RT) Examples.args_classification
    = Ok (m, Examples.theta, args')
    /\ featurizer m = false
    /\ classification m = true
    /\ multiclass m = false
    /\ encoder m = Some tt.
Proof.
  apply (build_model_returns (T := Examples.RT) Examples.args_classification tt
           RealTorch.ReLU Examples.theta);
    reflexivity.
Defined.

Lemma featurizer_forward_hidden_width_witness :
  head_output (T := Examples.RT)
    (train false
       (assembled (T := Examples.RT)
          (Namespace.set_featurizer true Examples.args_depth2) tt RealTorch.ReLU))
    Examples.theta Examples.one_molecule [] =
  Ok ({| RealTorch.shape := [1; 1]; RealTorch.data := [(-1 * 1 + 0 + 0)%R] |}, [])
  /\ size (Torch := Examples.RT)
       {| RealTorch.shape := [1; 1]; RealTorch.data := [(-1 * 1 + 0 + 0)%R] |}
     = [1] ++ [Namespace.ffn_hidden_size
                 (Namespace.set_featurizer true Examples.args_depth2)].
Proof.
  apply (featurizer_forward_hidden_width (T := Examples.RT)
           (Namespace.set_featurizer true Examples.args_depth2)
           (Namespace.set_output_size 1
              (Namespace.set_featurizer true Examples.args_depth2))
           (assembled (T := Examples.RT)
              (Namespace.set_featurizer true Examples.args_depth2) tt RealTorch.ReLU)
           Examples.theta Examples.theta false Examples.one_molecule [] [] [] tt
           Examples.one_molecule
           {| RealTorch.shape := [1; 1]; RealTorch.data := [(-1 * 1 + 0 + 0)%R] |}
           [1] 1);
    try reflexivity; simpl; lia.
Defined.

(* ------------------------------------------------------------------ *)
(** ** The shape of the head *)

(** [args.ffn_num_layers = v] *)
Definition with_ffn_num_layers (v : Z) (a : Namespace.t) : Namespace.t :=
  {| Namespace.num_tasks := Namespace.num_tasks a;
     Namespace.dataset_type := Namespace.dataset_type a;
     Namespace.multiclass_num_classes := Namespace.multiclass_num_classes a;
     Namespace.featurizer := Namespace.featurizer a;
     Namespace.features_only := Namespace.features_only a;
     Namespace.features_size := Namespace.features_size a;
     Namespace.hidden_size := Namespace.hidden_size a;
     Namespace.use_input_features := Namespace.use_input_features a;
     Namespace.features_dim := Namespace.features_dim a;
     Namespace.dropout := Namespace.dropout a;
     Namespace.activation := Namespace.activation a;
     Namespace.ffn_num_layers := v;
     Namespace.ffn_hidden_size := Namespace.ffn_hidden_size a;
     Namespace.output_size := Namespace.output_size a |}.

Definition is_linear {Act} (m : nnModule Act) : bool :=
  match m with
  | Linear _ _ => true
  | _ => false
  end.

(** The number of linear modules of a list. *)
Definition linear_count {Act} (ms : list (nnModule Act)) : nat :=
  List.length (filter is_linear ms).

(** The width a list of modules gives to an input of width [w], when every
    linear module meets its [in_features]; [None] when one does not. *)
Fixpoint widths_chain {Act} (ms : list (nnModule Act)) (w : Z) : option Z :=
  match ms with
  | [] => Some w
  | Linear i o :: ms' => if i =? w then widths_chain ms' o else None
  | _ :: ms' => widths_chain ms' w
  end.

Section HeadShape.
Context {T : Torch}.

Lemma linear_count_app (ms1 ms2 : list (nnModule Activation)) :
  linear_count (ms1 ++ ms2) = (linear_count ms1 + linear_count ms2)%nat.
Proof.
  unfold linear_count. now rewrite filter_app, length_app.
Qed.

Lemma linear_count_hidden (act : Activation) (p : Q) (h : Z) (n : nat) :
  linear_count (List.concat (repeat (hidden_stage act p h) n)) = n.
Proof.
  induction n as [|n IH]; [reflexivity |].
  cbn [repeat List.concat]. rewrite linear_count_app, IH. reflexivity.
Qed.

Lemma widths_chain_app (ms1 ms2 : list (nnModule Activation)) :
  forall w v,
    widths_chain ms1 w = Some v ->
    widths_chain (ms1 ++ ms2) w = widths_chain ms2 v.
Proof.
  induction ms1 as [|m ms1 IH]; intros w v H; simpl in *.
  - now injection H as ->.
  - destruct m as [p | a | i o]; try (now apply IH).
    destruct (i =? w); [now apply IH | discriminate H].
Qed.

Lemma widths_chain_hidden (act : Activation) (p : Q) (h : Z) (n : nat) :
  widths_chain (List.concat (repeat (hidden_stage act p h) n)) h = Some h.
Proof.
  induction n as [|n IH]; [reflexivity |].
  cbn [repeat List.concat].
  rewrite (widths_chain_app (hidden_stage act p h) _ h h); [exact IH |].
  simpl. now rewrite Z.eqb_refl.
Qed.

End HeadShape.

(** [ffn_num_layers] counts the linear modules of the head: a model that is no
    featurizer, of depth at least one, has that many; a featurizer of depth at
    least two has one less. *)
Theorem head_linear_count {T : Torch} (args args' : Namespace.t)
    (m : MoleculeModel) (th : Weights) :
  build_model args = Ok (m, th, args') ->
  exists ms,
    ffn m = Some ms
    /\ (Namespace.featurizer args = false -> 1 <= Namespace.ffn_num_layers args ->
        Z.of_nat (linear_count ms) = Namespace.ffn_num_layers args)
    /\ (Namespace.featurizer args = true -> 2 <= Namespace.ffn_num_layers args ->
        Z.of_nat (linear_count ms) = Namespace.ffn_num_layers args - 1).
Proof.
  intros H. apply build_model_inv in H.
  destruct H as (_ & enc & act & _ & _ & -> & _).
  eexists. split; [reflexivity |]. unfold head_modules.
  split; intros Hf Hd; rewrite Hf.
  - destruct (Namespace.ffn_num_layers args =? 1) eqn:E.
    + apply Z.eqb_eq in E. rewrite E. reflexivity.
    + apply Z.eqb_neq in E.
      rewrite !linear_count_app, linear_count_hidden.
      cbn [linear_count filter is_linear List.length]. lia.
  - destruct (Namespace.ffn_num_layers args =? 1) eqn:E.
    + apply Z.eqb_eq in E. lia.
    + rewrite !linear_count_app, linear_count_hidden.
      cbn [linear_count filter is_linear List.length]. lia.
Qed.

Lemma head_linear_count_witness :
  exists ms,
    ffn (assembled (T := Examples.RT) Examples.args_regression tt RealTorch.ReLU) = Some ms
    /\ (Namespace.featurizer Examples.args_regression = false ->
        1 <= Namespace.ffn_num_layers Examples.args_regression ->
        Z.of_nat (linear_count ms) = Namespace.ffn_num_layers Examples.args_regression)
    /\ (Namespace.featurizer Examples.args_regression = true ->
        2 <= Namespace.ffn_num_layers Examples.args_regression ->
        Z.of_nat (linear_count ms) = Namespace.ffn_num_layers Examples.args_regression - 1).
Proof.
  apply (head_linear_count (T := Examples.RT) Examples.args_regression
           (Namespace.set_output_size 3 Examples.args_regression)
           (assembled (T := Examples.RT) Examples.args_regression tt RealTorch.ReLU)
           Examples.theta).
  reflexivity.
Defined.

(** A depth of zero or less is a depth of two: [range] of a negative number
    is empty, so [create_ffn] does for such a depth, errors included, what it
    does for two. *)
Theorem create_ffn_nonpositive_depth {T : Torch} (self : MoleculeModel)
    (args : Namespace.t) :
  Namespace.ffn_num_layers args <= 0 ->
  create_ffn self args = create_ffn self (with_ffn_num_layers 2 args).
Proof.
  intros Hd. unfold create_ffn, for_range.
  change (first_linear_dim (with_ffn_num_layers 2 args)) with (first_linear_dim args).
  cbn [with_ffn_num_layers Namespace.ffn_num_layers Namespace.dropout
       Namespace.activation Namespace.ffn_hidden_size Namespace.multiclass_num_classes].
  change (Namespace.get_output_size (with_ffn_num_layers 2 args))
    with (Namespace.get_output_size args).
  destruct (Namespace.ffn_num_layers args =? 1) eqn:E; [apply Z.eqb_eq in E; lia |].
  change (2 =? 1) with false. cbv iota.
  replace (Z.to_nat (Namespace.ffn_num_layers args - 2)) with (Z.to_nat (2 - 2)) by lia.
  reflexivity.
Qed.

Lemma create_ffn_nonpositive_depth_witness :
  create_ffn (T := Examples.RT) Examples.regression_self
    (with_ffn_num_layers 0 (Namespace.set_output_size 1 Examples.args_depth2)) =
  create_ffn (T := Examples.RT) Examples.regression_self
    (with_ffn_num_layers 2
       (with_ffn_num_layers 0 (Namespace.set_output_size 1 Examples.args_depth2))).
Proof.
  apply (create_ffn_nonpositive_depth (T := Examples.RT) Examples.regression_self
           (with_ffn_num_layers 0 (Namespace.set_output_size 1 Examples.args_depth2))).
  simpl. lia.
Defined.

(** The head is consistent in its widths: from the input width
    [first_linear_dim], every linear module is given a tensor of its
    [in_features], and the last width is the output width, or the hidden width
    for a featurizer of depth other than one. *)
Theorem head_widths_agree {T : Torch} (args args' : Namespace.t)
    (m : MoleculeModel) (th : Weights) :
  build_model args = Ok (m, th, args') ->
  exists ms out,
    ffn m = Some ms
    /\ Namespace.output_size args' = Some out
    /\ widths_chain ms (first_linear_dim args) =
       Some (if (Namespace.featurizer args
                 && negb (Namespace.ffn_num_layers args =? 1))%bool
             then Namespace.ffn_hidden_size args
             else out).
Proof.
  intros H. apply build_model_inv in H.
  destruct H as (-> & enc & act & _ & _ & -> & _).
  eexists. eexists. split; [reflexivity |]. split; [reflexivity |].
  unfold head_modules.
  destruct (Namespace.ffn_num_layers args =? 1).
  - rewrite andb_false_r. simpl. now rewrite !Z.eqb_refl.
  - rewrite andb_true_r.
    rewrite (widths_chain_app [Dropout (Namespace.dropout args);
                               Linear (first_linear_dim args)
                                 (Namespace.ffn_hidden_size args)]
               _ (first_linear_dim args) (Namespace.ffn_hidden_size args))
      by (simpl; now rewrite Z.eqb_refl).
    rewrite (widths_chain_app _ _ _ _
               (widths_chain_hidden act (Namespace.dropout args)
                  (Namespace.ffn_hidden_size args) _)).
    destruct (Namespace.featurizer args); simpl; [reflexivity |].
    now rewrite Z.eqb_refl.
Qed.

Lemma head_widths_agree_witness :
  exists ms out,
    ffn (assembled (T := Examples.RT) Examples.args_regression tt RealTorch.ReLU) = Some ms
    /\ Namespace.output_size (Namespace.set_output_size 3 Examples.args_regression)
       = Some out
    /\ widths_chain ms (first_linear_dim Examples.args_regression) =
       Some (if (Namespace.featurizer Examples.args_regression
                 && negb (Namespace.ffn_num_layers Examples.args_regression =? 1))%bool
             then Namespace.ffn_hidden_size Examples.args_regression
             else out).
Proof.
  apply (head_widths_agree (T := Examples.RT) Examples.args_regression
           (Namespace.set_output_size 3 Examples.args_regression)
           (assembled (T := Examples.RT) Examples.args_regression tt RealTorch.ReLU)
           Examples.theta).
  reflexivity.
Defined.

(* ------------------------------------------------------------------ *)
(** ** Calling [build_model] again *)

(** [build_model] on the configuration a call of it has left builds the same
    model and leaves the configuration as it is: [args.output_size] is set
    anew from [args.num_tasks] before it is multiplied, so the classes do not
    multiply up over the calls. *)
Theorem build_model_again {T : Torch} (args args' : Namespace.t)
    (m : MoleculeModel) (th : Weights) :
  build_model args = Ok (m, th, args') ->
  build_model args' = Ok (m, th, args').
Proof.
  intros H. pose proof H as H0. apply build_model_inv in H0.
  destruct H0 as [-> _]. rewrite <- H. unfold build_model.
  pose proof (output_size_written args) as Hw.
  pose proof (output_size_written
                (Namespace.set_output_size (output_width args) args)) as Hw'.
  cbv zeta in Hw, Hw' |- *. rewrite Hw, Hw'. reflexivity.
Qed.

Lemma build_model_again_witness :
  build_model (T := Examples.RT6)
    (Namespace.set_output_size 6 Examples.args_multiclass) =
  Ok (assembled (T := Examples.RT6) Examples.args_multiclass tt RealTorch.ReLU,
      Examples.theta6, Namespace.set_output_size 6 Examples.args_multiclass).
Proof.
  apply (build_model_again (T := Examples.RT6) Examples.args_multiclass
           (Namespace.set_output_size 6 Examples.args_multiclass)
           (assembled (T := Examples.RT6) Examples.args_multiclass tt RealTorch.ReLU)
           Examples.theta6).
  reflexivity.
Defined.

(* ------------------------------------------------------------------ *)
(** ** [featurize] and the last linear module *)

Section LastLinear.
Context {T : Torch}.

Lemma hidden_stages_snoc (act : Activation) (p : Q) (h : Z) (n : nat) :
  List.concat (repeat (hidden_stage act p h) (S n)) =
  (List.concat (repeat (hidden_stage act p h) n) ++ [ActivationFn act; Dropout p])
  ++ [Linear h h].
Proof.
  change (repeat (hidden_stage act p h) (S n))
    with (hidden_stage act p h :: repeat (hidden_stage act p h) n).
  rewrite repeat_cons, concat_app. cbn [List.concat].
  rewrite app_nil_r. unfold hidden_stage. now rewrite <- app_assoc.
Qed.

(** With or without the featurizer flag, the head ends in a linear module. *)
Lemma head_modules_ends_linear (f : bool) (p : Q) (act : Activation)
    (depth w h out : Z) :
  exists front i o, head_modules f p act depth w h out = front ++ [Linear i o].
Proof.
  destruct f; [| destruct (head_modules_last p act depth w h out) as (front & i & E);
                 now exists front, i, out].
  unfold head_modules. destruct (depth =? 1).
  - now exists [Dropout p], w, out.
  - rewrite app_nil_r. destruct (Z.to_nat (depth - 2)) as [|n].
    + now exists [Dropout p], w, h.
    + rewrite hidden_stages_snoc.
      exists ([Dropout p; Linear w h]
              ++ List.concat (repeat (hidden_stage act p h) n)
              ++ [ActivationFn act; Dropout p]), h, h.
      now rewrite <- !app_assoc.
Qed.

End LastLinear.

(** In every model [build_model] returns the head ends in a linear module, and
    the head's output is that module applied to what [featurize] returns: the
    features are the input of the last linear module. *)
Theorem head_output_is_linear_of_features {T : Torch} (args args' : Namespace.t)
    (m : MoleculeModel) (th0 th : Weights) (mode : bool) (x : Input) :
  build_model args = Ok (m, th0, args') ->
  exists front i o,
    ffn m = Some (front ++ [Linear i o])
    /\ forall g,
         head_output (train mode m) th x g =
         (features <- featurize (train mode m) th x ;;
          lift (F_linear th (List.length front) i o features)) g.
Proof.
  intros H. apply build_model_inv in H.
  destruct H as (_ & enc & act & _ & _ & -> & _).
  destruct (head_modules_ends_linear (Namespace.featurizer args)
              (Namespace.dropout args) act (Namespace.ffn_num_layers args)
              (first_linear_dim args) (Namespace.ffn_hidden_size args)
              (output_width args)) as (front & i & o & E).
  exists front, i, o. split; [cbn; now rewrite E |]. intros g.
  cbn [bind Run_Monad].
  erewrite head_output_eq by reflexivity.
  erewrite featurize_eq by reflexivity.
  cbn [training train assembled]. rewrite E, removelast_last.
  destruct (encoder_forward enc th mode x g) as [[e g1]|]; [| reflexivity].
  rewrite Sequential_forward_app.
  destruct (Sequential_forward th mode 0 front e g1) as [[f g2]|]; [| reflexivity].
  cbn. unfold lift.
  now destruct (F_linear th (List.length front) i o f).
Qed.

Lemma head_output_is_linear_of_features_witness :
  exists front i o,
    ffn (assembled (T := Examples.RT) Examples.args_depth2 tt RealTorch.ReLU)
    = Some (front ++ [Linear i o])
    /\ forall g,
         head_output (T := Examples.RT)
           (train false
              (assembled (T := Examples.RT) Examples.args_depth2 tt RealTorch.ReLU))
           Examples.theta Examples.one_molecule g =
         (features <- featurize (T := Examples.RT)
                        (train false
                           (assembled (T := Examples.RT) Examples.args_depth2 tt
                              RealTorch.ReLU))
                        Examples.theta Examples.one_molecule ;;
          lift (F_linear (Torch := Examples.RT) Examples.theta
                  (List.length front) i o features)) g.
Proof.
  apply (head_output_is_linear_of_features (T := Examples.RT) Examples.args_depth2
           (Namespace.set_output_size 1 Examples.args_depth2)
           (assembled (T := Examples.RT) Examples.args_depth2 tt RealTorch.ReLU)
           Examples.theta Examples.theta false Examples.one_molecule).
  reflexivity.
Defined.

(* ------------------------------------------------------------------ *)
(** ** What [forward] returns, and when it raises *)

Section ForwardFacts.
Context {T : Torch}.

(** [forward] raises what the head raises. *)
Lemma forward_head_raises (self : MoleculeModel) (th : Weights) (x : Input)
    (g : Rng) (ex : Exn) :
  head_output self th x g = Raise ex -> forward self th x g = Raise ex.
Proof.
  unfold forward, head_output. cbn [bind Run_Monad].
  destruct (lift (getattr "ffn" (ffn self)) g) as [[ms g0]|]; [| trivial].
  destruct (lift (getattr "encoder" (encoder self)) g0) as [[enc g1]|]; [| trivial].
  destruct (encoder_forward enc th (training self) x g1) as [[e g2]|]; [| trivial].
  destruct (Sequential_forward th (training self) 0 ms e g2) as [[o g3]|];
    [discriminate | trivial].
Qed.

(** The head starts with dropout and the linear module of the input width. *)
Lemma head_modules_starts (f : bool) (p : Q) (act : Activation) (depth w h out : Z) :
  exists o rest, head_modules f p act depth w h out = Dropout p :: Linear w o :: rest.
Proof.
  unfold head_modules. destruct (depth =? 1); eexists; eexists; reflexivity.
Qed.

Lemma stack_width_head (p : Q) (act : Activation) (depth w h out w0 : Z) :
  stack_width (head_modules false p act depth w h out) w0 = out.
Proof.
  destruct (head_modules_last p act depth w h out) as (front & i & ->).
  now rewrite stack_width_app.
Qed.

End ForwardFacts.

(** Regression and classification: when the head returns, [forward] returns,
    and for an encoder output of shape [lead ++ [w]] its result has the shape
    [lead ++ [num_tasks]], one value per task. *)
Theorem forward_output_per_task {T : Torch} (args args' : Namespace.t)
    (m : MoleculeModel) (th0 th : Weights) (mode : bool) (x : Input)
    (g g1 g' : Rng) (enc : Encoder) (e out : Tensor) (lead : list Z) (w : Z) :
  build_model args = Ok (m, th0, args') ->
  (Namespace.dataset_type args =? "multiclass")%string = false ->
  Namespace.featurizer args = false ->
  encoder m = Some enc ->
  encoder_forward enc th mode x g = Ok (e, g1) ->
  size e = lead ++ [w] ->
  head_output (train mode m) th x g = Ok (out, g') ->
  exists y,
    forward (train mode m) th x g = Ok (y, g')
    /\ size y = lead ++ [Namespace.num_tasks args].
Proof.
  intros H Hmc Hf He Hx Hs Hh. apply build_model_inv in H.
  destruct H as (_ & enc' & act & _ & _ & -> & _).
  cbn in He. injection He as ->.
  erewrite head_output_eq in Hh by reflexivity.
  cbn [training train assembled] in Hh. rewrite Hx, Hf in Hh.
  assert (Hout : size out = lead ++ [Namespace.num_tasks args]).
  { rewrite (Sequential_forward_size _ _ _ _ _ _ _ _ lead w Hh Hs).
    rewrite stack_width_head. unfold output_width. now rewrite Hmc. }
  unfold forward, assembled, train. rewrite Hf, Hmc. cbn. rewrite Hx. cbn.
  rewrite Hh. cbn.
  destruct (Namespace.dataset_type args =? "classification")%string, mode; cbn;
    eexists; (split; [reflexivity |]);
    rewrite ?torch_sigmoid_size; exact Hout.
Qed.

Lemma forward_output_per_task_witness :
  exists y,
    forward (T := Examples.RT)
      (train false
         (assembled (T := Examples.RT) Examples.args_classification tt RealTorch.ReLU))
      Examples.theta Examples.one_molecule [] = Ok (y, [])
    /\ size y = [1] ++ [Namespace.num_tasks Examples.args_classification].
Proof.
  apply (forward_output_per_task (T := Examples.RT) Examples.args_classification
           (Namespace.set_output_size 1 Examples.args_classification)
           (assembled (T := Examples.RT) Examples.args_classification tt RealTorch.ReLU)
           Examples.theta Examples.theta false Examples.one_molecule [] [] [] tt
           Examples.one_molecule
           {| RealTorch.shape := [1; 1];
              RealTorch.data := [(1 * Rmax 0 (-1 * 1 + 0 + 0) + 0 + 0)%R] |}
           [1] 1);
    reflexivity.
Defined.

(** An encoder output whose width is not the input width of the head makes
    [forward] raise, in both run modes: the first linear module refuses it,
    and nothing in [forward] catches that. *)
Theorem forward_rejects_encoder_width {T : Torch} (args args' : Namespace.t)
    (m : MoleculeModel) (th0 th : Weights) (mode : bool) (x : Input)
    (g g1 : Rng) (enc : Encoder) (e : Tensor) (lead : list Z) (w : Z) :
  build_model args = Ok (m, th0, args') ->
  encoder m = Some enc ->
  encoder_forward enc th mode x g = Ok (e, g1) ->
  size e = lead ++ [w] ->
  w <> first_linear_dim args ->
  exists ex, forward (train mode m) th x g = Raise ex.
Proof.
  intros H He Hx Hs Hw. apply build_model_inv in H.
  destruct H as (_ & enc' & act & _ & _ & -> & _).
  cbn in He. injection He as ->.
  destruct (head_modules_starts (Namespace.featurizer args) (Namespace.dropout args)
              act (Namespace.ffn_num_layers args) (first_linear_dim args)
              (Namespace.ffn_hidden_size args) (output_width args))
    as (o & rest & E).
  assert (Hh : exists ex,
    head_output (train mode (assembled args enc act)) th x g = Raise ex).
  { erewrite head_output_eq by reflexivity.
    cbn [training train assembled]. rewrite Hx, E.
    cbn [Sequential_forward bind Run_Monad].
    destruct (module_forward th mode 0 (Dropout (Namespace.dropout args)) e g1)
      as [[e1 g2]|ex] eqn:Ed; [| now exists ex].
    pose proof (module_forward_size _ _ _ _ _ _ _ _ lead w Ed Hs) as Hs1.
    cbn [module_width] in Hs1. cbn [module_forward]. unfold lift at 1.
    destruct (F_linear th 1 (first_linear_dim args) o e1) as [y|ex] eqn:El;
      [| now exists ex].
    apply F_linear_size in El. destruct El as (lead' & Hx' & _).
    rewrite Hs1 in Hx'. apply app_inj_tail in Hx'. destruct Hx' as [_ Hx'].
    contradiction. }
  destruct Hh as (ex & Hh). exists ex. now apply forward_head_raises.
Qed.

Lemma forward_rejects_encoder_width_witness :
  exists ex,
    forward (T := Examples.RT)
      (train false
         (assembled (T := Examples.RT) Examples.args_depth2 tt RealTorch.ReLU))
      Examples.theta
      {| RealTorch.shape := [1; 2]; RealTorch.data := [1%R; 1%R] |} [] = Raise ex.
Proof.
  apply (forward_rejects_encoder_width (T := Examples.RT) Examples.args_depth2
           (Namespace.set_output_size 1 Examples.args_depth2)
           (assembled (T := Examples.RT) Examples.args_depth2 tt RealTorch.ReLU)
           Examples.theta Examples.theta false
           {| RealTorch.shape := [1; 2]; RealTorch.data := [1%R; 1%R] |} [] [] tt
           {| RealTorch.shape := [1; 2]; RealTorch.data := [1%R; 1%R] |} [1] 2);
    try reflexivity. unfold first_linear_dim. simpl. lia.
Defined.

(* ------------------------------------------------------------------ *)
(** ** A model that is not assembled yet *)

(** [forward] and [featurize] need both [create_encoder] and [create_ffn]: on
    a model as the constructor returns it, and on one with the encoder only,
    they raise the AttributeError of [self.ffn], before anything is run; on
    one with the head only, that of [self.encoder]. *)
Theorem calls_before_assembly {T : Torch} (f c mc : bool)
    (self s1 s2 : MoleculeModel) (args : Namespace.t) (th : Weights) (x : Input)
    (g : Rng) :
  __init__ f c mc = Ok self ->
  create_encoder self args = Ok s1 ->
  create_ffn self args = Ok s2 ->
  (forward self th x g = Raise (AttributeError "ffn")
   /\ featurize self th x g = Raise (AttributeError "ffn"))
  /\ (forward s1 th x g = Raise (AttributeError "ffn")
      /\ featurize s1 th x g = Raise (AttributeError "ffn"))
  /\ (forward s2 th x g = Raise (AttributeError "encoder")
      /\ featurize s2 th x g = Raise (AttributeError "encoder")).
Proof.
  intros Hi H1 H2.
  assert (Hself : ffn self = None /\ encoder self = None).
  { unfold __init__ in Hi. destruct (c && mc)%bool; [discriminate |].
    destruct f, c, mc; injection Hi as <-; split; reflexivity. }
  destruct Hself as [Hffn Henc].
  unfold create_encoder in H1. cbn [bind ret Result_Monad] in H1.
  destruct (MPN args) as [enc|]; [| discriminate]. injection H1 as <-.
  apply create_ffn_inv in H2. destruct H2 as (act & out & _ & _ & ->).
  unfold forward, featurize. cbn [bind Run_Monad].
  repeat split; cbn; rewrite ?Hffn; try reflexivity;
    destruct (multiclass self); cbn; rewrite Henc; reflexivity.
Qed.

Lemma calls_before_assembly_witness :
  (forward (T := Examples.RT)
     (@Build_MoleculeModel Examples.RT true false false false None None None None None)
     Examples.theta Examples.one_molecule [] = Raise (AttributeError "ffn")
   /\ featurize (T := Examples.RT)
        (@Build_MoleculeModel Examples.RT true false false false None None None None None)
        Examples.theta Examples.one_molecule [] = Raise (AttributeError "ffn"))
  /\ (forward (T := Examples.RT) Examples.regression_self
        Examples.theta Examples.one_molecule [] = Raise (AttributeError "ffn")
      /\ featurize (T := Examples.RT) Examples.regression_self
           Examples.theta Examples.one_molecule [] = Raise (AttributeError "ffn"))
  /\ (forward (T := Examples.RT)
        (@Build_MoleculeModel Examples.RT true false false false None None None None
           (Some [Dropout 0%Q; Linear 1 1;
                  ActivationFn RealTorch.ReLU; Dropout 0%Q; Linear 1 1]))
        Examples.theta Examples.one_molecule [] = Raise (AttributeError "encoder")
      /\ featurize (T := Examples.RT)
           (@Build_MoleculeModel Examples.RT true false false false None None None None
              (Some [Dropout 0%Q; Linear 1 1;
                     ActivationFn RealTorch.ReLU; Dropout 0%Q; Linear 1 1]))
           Examples.theta Examples.one_molecule [] = Raise (AttributeError "encoder")).
Proof.
  apply (calls_before_assembly (T := Examples.RT) false false false
           (@Build_MoleculeModel Examples.RT true false false false
              None None None None None)
           Examples.regression_self
           (@Build_MoleculeModel Examples.RT true false false false None None None None
              (Some [Dropout 0%Q; Linear 1 1;
                     ActivationFn RealTorch.ReLU; Dropout 0%Q; Linear 1 1]))
           (Namespace.set_output_size 1 Examples.args_depth2)
           Examples.theta Examples.one_molecule []);
    reflexivity.
Defined.

(** [create_ffn] on a configuration without [output_size] (one that
    [build_model] has not seen), when the constructors it reaches return: it
    raises the AttributeError of [args.output_size] when the depth is one or
    the model is no featurizer, and returns for a featurizer of another depth,
    which never reads it. *)
Theorem create_ffn_without_output_size {T : Torch} (self : MoleculeModel)
    (args : Namespace.t) (act : Activation) :
  Namespace.output_size args = None ->
  nn_Dropout (Act := Activation) (Namespace.dropout args)
  = Ok (Dropout (Namespace.dropout args)) ->
  get_activation_function (Namespace.activation args) = Ok act ->
  nn_Linear (first_linear_dim args) (Namespace.ffn_hidden_size args)
  = Ok (Linear (first_linear_dim args) (Namespace.ffn_hidden_size args)) ->
  nn_Linear (Namespace.ffn_hidden_size args) (Namespace.ffn_hidden_size args)
  = Ok (Linear (Namespace.ffn_hidden_size args) (Namespace.ffn_hidden_size args)) ->
  ((Namespace.ffn_num_layers args = 1 \/ featurizer self = false) ->
   create_ffn self args = Raise (AttributeError "output_size"))
  /\ ((Namespace.ffn_num_layers args <> 1 /\ featurizer self = true) ->
      exists s, create_ffn self args = Ok s /\ featurizer s = true).
Proof.
  intros Ho Hd Ha L2 L3.
  pose proof (hidden_loop_ok act (Namespace.dropout args)
                (Namespace.ffn_hidden_size args)
                (Z.to_nat (Namespace.ffn_num_layers args - 2)) L3) as Hloop.
  assert (Hfeat :
    featurizer (if multiclass self
                then set_num_classes (Namespace.multiclass_num_classes args) self
                else self) = featurizer self) by (now destruct (multiclass self)).
  unfold create_ffn, Namespace.get_output_size, for_range.
  cbn [bind ret Result_Monad] in *. rewrite Hd, Ha, Ho.
  split.
  - intros [Hdepth | Hf].
    + rewrite Hdepth. reflexivity.
    + destruct (Namespace.ffn_num_layers args =? 1); [reflexivity |].
      rewrite L2, Hloop, Hfeat, Hf. reflexivity.
  - intros [Hdepth Hf]. apply Z.eqb_neq in Hdepth. rewrite Hdepth.
    rewrite L2, Hloop, Hfeat, Hf. cbn. eexists. split; [reflexivity |].
    cbn. now rewrite Hfeat.
Qed.

Lemma create_ffn_without_output_size_witness :
  ((Namespace.ffn_num_layers Examples.args_depth2 = 1
    \/ featurizer Examples.regression_self = false) ->
   create_ffn (T := Examples.RT) Examples.regression_self Examples.args_depth2
   = Raise (AttributeError "output_size"))
  /\ ((Namespace.ffn_num_layers Examples.args_depth2 <> 1
       /\ featurizer Examples.regression_self = true) ->
      exists s,
        create_ffn (T := Examples.RT) Examples.regression_self Examples.args_depth2
        = Ok s /\ featurizer s = true).
Proof.
  apply (create_ffn_without_output_size (T := Examples.RT) Examples.regression_self
           Examples.args_depth2 RealTorch.ReLU);
    reflexivity.
Defined.

(* ------------------------------------------------------------------ *)
(** ** Errors of the collaborators *)

(** [build_model] hands on, as it is, what [MPN] raises, and, when the
    encoder is built and the dropout probability accepted, what
    [get_activation_function] raises. *)
Theorem build_model_propagates {T : Torch} (args : Namespace.t) (e : Exn) :
  (MPN (Namespace.set_output_size (output_width args) args) = Raise e
   \/ ((exists enc, MPN (Namespace.set_output_size (output_width args) args) = Ok enc)
       /\ nn_Dropout (Act := Activation) (Namespace.dropout args)
          = Ok (Dropout (Namespace.dropout args))
       /\ get_activation_function (Namespace.activation args) = Raise e)) ->
  build_model args = Raise e.
Proof.
  intros H. unfold build_model.
  pose proof (output_size_written args) as Hw. cbv zeta in Hw |- *.
  rewrite Hw. clear Hw. cbn [bind Result_Monad].
  rewrite init_ok by apply dataset_flags_exclusive.
  unfold create_encoder. cbn [bind ret Result_Monad].
  destruct H as [Hm | [[enc Hm] [Hd Ha]]]; rewrite Hm; [reflexivity |].
  unfold create_ffn. cbn [bind ret Result_Monad Namespace.dropout
                          Namespace.activation Namespace.set_output_size].
  rewrite Hd, Ha. reflexivity.
Qed.

Lemma build_model_propagates_witness :
  build_model (T := Examples.RT)
    {| Namespace.num_tasks := 1;
       Namespace.dataset_type := "regression";
       Namespace.multiclass_num_classes := 3;
       Namespace.featurizer := false;
       Namespace.features_only := false;
       Namespace.features_size := 0;
       Namespace.hidden_size := 1;
       Namespace.use_input_features := false;
       Namespace.features_dim := 0;
       Namespace.dropout := 0%Q;
       Namespace.activation := "softplus";
       Namespace.ffn_num_layers := 2;
       Namespace.ffn_hidden_size := 1;
       Namespace.output_size := None |} = Raise ValueError.
Proof.
  apply (build_model_propagates (T := Examples.RT)).
  right. split; [exists tt; reflexivity | split; reflexivity].
Defined.

(* ------------------------------------------------------------------ *)
(** ** Multiclass on an empty batch *)

(** [reshape] cannot infer the [-1] of [(0, -1, classes)]: the other sizes
    multiply to zero. *)
Lemma infer_size_empty_batch (c n : Z) : infer_size [0; -1; c] n = None.
Proof.
  unfold infer_size. cbn [existsb filter].
  change (0 <? -1) with false. change (-1 <? -1) with false.
  change (0 =? -1) with false. change (-1 =? -1) with true. cbn [orb negb].
  destruct (c <? -1); [reflexivity |]. cbn [orb].
  destruct (c =? -1); cbn; [reflexivity |].
  now destruct c.
Qed.

(** Over real-valued tensors: a multiclass model that is no featurizer raises
    the RuntimeError of [reshape] on an empty batch, in both run modes,
    though its head returns. *)
Theorem multiclass_empty_batch_raises (draws : nat -> RealTorch.linear_params)
    (memory : Z)
    (args args' : Namespace.t) (m : MoleculeModel (T := RealTorch.real_torch draws memory))
    (th0 th : nat -> RealTorch.linear_params) (mode : bool)
    (x out : RealTorch.tensor) (g g' : list bool) (w : Z) :
  build_model (T := RealTorch.real_torch draws memory) args = Ok (m, th0, args') ->
  Namespace.dataset_type args = "multiclass"%string ->
  Namespace.featurizer args = false ->
  head_output (T := RealTorch.real_torch draws memory) (train mode m) th x g = Ok (out, g') ->
  RealTorch.shape out = [0; w] ->
  forward (T := RealTorch.real_torch draws memory) (train mode m) th x g = Raise RuntimeError.
Proof.
  intros H Hd Hf Hh Hs.
  apply (build_model_inv (T := RealTorch.real_torch draws memory)) in H.
  destruct H as (_ & enc & act & _ & _ & -> & _).
  unfold head_output, assembled, train in Hh. rewrite Hd, Hf in Hh. cbn in Hh.
  unfold forward, assembled, train. rewrite Hd, Hf. cbn. rewrite Hh. cbn.
  unfold size0. cbn. rewrite Hs. cbn. unfold RealTorch.view.
  now rewrite infer_size_empty_batch.
Qed.

Lemma multiclass_empty_batch_raises_witness :
  forward (T := Examples.RT6)
    (train false
       (assembled (T := Examples.RT6) Examples.args_multiclass tt RealTorch.ReLU))
    Examples.theta6 {| RealTorch.shape := [0; 1]; RealTorch.data := [] |} []
  = Raise RuntimeError.
Proof.
  apply (multiclass_empty_batch_raises Examples.theta6 Examples.memory
           Examples.args_multiclass
           (Namespace.set_output_size 6 Examples.args_multiclass)
           (assembled (T := Examples.RT6) Examples.args_multiclass tt RealTorch.ReLU)
           Examples.theta6 Examples.theta6 false
           {| RealTorch.shape := [0; 1]; RealTorch.data := [] |}
           {| RealTorch.shape := [0; 6]; RealTorch.data := [] |} [] [] 6);
    reflexivity.
Defined.

(* ------------------------------------------------------------------ *)
(** ** A dataset type that is none of the three *)

(** [build_model] does not check [args.dataset_type]: a string that is neither
    "classification" nor "multiclass" gives a regression model, with both
    flags off and [num_tasks] outputs, whose [forward] is the head's output in
    both run modes. *)
Theorem other_dataset_type_is_regression {T : Torch} (args args' : Namespace.t)
    (m : MoleculeModel) (th0 th : Weights) (mode : bool) (x : Input) (g : Rng) :
  build_model args = Ok (m, th0, args') ->
  Namespace.dataset_type args <> "classification"%string ->
  Namespace.dataset_type args <> "multiclass"%string ->
  classification m = false
  /\ multiclass m = false
  /\ Namespace.output_size args' = Some (Namespace.num_tasks args)
  /\ forward (train mode m) th x g = head_output (train mode m) th x g.
Proof.
  intros H Hc Hm. apply build_model_inv in H.
  destruct H as (-> & enc & act & _ & _ & -> & _).
  apply String.eqb_neq in Hc. apply String.eqb_neq in Hm.
  unfold forward, head_output, assembled, train, output_width.
  rewrite Hc, Hm. cbn.
  repeat (split; [reflexivity |]).
  destruct (encoder_forward enc th mode x g) as [[e g1]|]; [| reflexivity].
  match goal with
  | |- context [Sequential_forward ?a ?b ?c ?d ?e ?f] =>
      destruct (Sequential_forward a b c d e f) as [[o g2]|]; [| reflexivity]
  end.
  destruct (Namespace.featurizer args); reflexivity.
Qed.

(** A configuration whose dataset type is none of the three. *)
Definition args_ranking : Namespace.t :=
  {| Namespace.num_tasks := 1;
     Namespace.dataset_type := "ranking";
     Namespace.multiclass_num_classes := 3;
     Namespace.featurizer := false;
     Namespace.features_only := false;
     Namespace.features_size := 0;
     Namespace.hidden_size := 1;
     Namespace.use_input_features := false;
     Namespace.features_dim := 0;
     Namespace.dropout := 0%Q;
     Namespace.activation := "ReLU";
     Namespace.ffn_num_layers := 2;
     Namespace.ffn_hidden_size := 1;
     Namespace.output_size := None |}.

Lemma other_dataset_type_is_regression_witness :
  classification (assembled (T := Examples.RT) args_ranking tt RealTorch.ReLU) = false
  /\ multiclass (assembled (T := Examples.RT) args_ranking tt RealTorch.ReLU) = false
  /\ Namespace.output_size (Namespace.set_output_size 1 args_ranking)
     = Some (Namespace.num_tasks args_ranking)
  /\ forward (T := Examples.RT)
       (train false (assembled (T := Examples.RT) args_ranking tt RealTorch.ReLU))
       Examples.theta Examples.one_molecule [] =
     head_output (T := Examples.RT)
       (train false (assembled (T := Examples.RT) args_ranking tt RealTorch.ReLU))
       Examples.theta Examples.one_molecule [].
Proof.
  apply (other_dataset_type_is_regression (T := Examples.RT) args_ranking
           (Namespace.set_output_size 1 args_ranking)
           (assembled (T := Examples.RT) args_ranking tt RealTorch.ReLU)
           Examples.theta Examples.theta false Examples.one_molecule []);
    [reflexivity | discriminate | discriminate].
Defined.

(* ------------------------------------------------------------------ *)
(** ** Dropout before every linear module *)

(** Every linear module of the list comes right after a dropout module of
    probability [p]; [after] says whether the module before the list is
    one. *)
Fixpoint dropout_before_linear {Act} (p : Q) (after : bool)
    (ms : list (nnModule Act)) : Prop :=
  match ms with
  | [] => True
  | Dropout q :: ms' => q = p /\ dropout_before_linear p true ms'
  | ActivationFn _ :: ms' => dropout_before_linear p false ms'
  | Linear _ _ :: ms' => after = true /\ dropout_before_linear p false ms'
  end.

Section DropoutFacts.
Context {T : Torch}.

Lemma dropout_before_linear_app (p : Q) (ms1 ms2 : list (nnModule Activation)) :
  forall after,
    dropout_before_linear p after ms1 ->
    (forall after', dropout_before_linear p after' ms2) ->
    dropout_before_linear p after (ms1 ++ ms2).
Proof.
  induction ms1 as [|m ms1 IH]; intros after H1 H2; simpl.
  - apply H2.
  - destruct m as [q | a | i o]; simpl in H1.
    + destruct H1 as [Hq H1]. split; [exact Hq | now apply IH].
    + now apply IH.
    + destruct H1 as [Ha H1]. split; [exact Ha | now apply IH].
Qed.

Lemma dropout_before_linear_hidden (p : Q) (act : Activation) (h : Z) (n : nat) :
  forall after,
    dropout_before_linear p after (List.concat (repeat (hidden_stage act p h) n)).
Proof.
  induction n as [|n IH]; intros after; [exact I |].
  cbn [repeat List.concat]. simpl. auto.
Qed.

End DropoutFacts.

(** In the head of every model [build_model] returns, each linear module is
    given what a dropout module of probability [args.dropout] returns: no
    linear module comes first, or right after the activation or another linear
    module. *)
Theorem head_dropout_before_linear {T : Torch} (args args' : Namespace.t)
    (m : MoleculeModel) (th : Weights) :
  build_model args = Ok (m, th, args') ->
  exists ms,
    ffn m = Some ms /\ dropout_before_linear (Namespace.dropout args) false ms.
Proof.
  intros H. apply build_model_inv in H.
  destruct H as (_ & enc & act & _ & _ & -> & _).
  eexists. split; [reflexivity |]. unfold head_modules.
  destruct (Namespace.ffn_num_layers args =? 1); [simpl; auto |].
  apply (dropout_before_linear_app _ [_; _]); [simpl; auto |].
  intros after. apply dropout_before_linear_app.
  - apply dropout_before_linear_hidden.
  - intros after'. destruct (Namespace.featurizer args); simpl; auto.
Qed.

Lemma head_dropout_before_linear_witness :
  exists ms,
    ffn (assembled (T := Examples.RT) Examples.args_regression tt RealTorch.ReLU) = Some ms
    /\ dropout_before_linear (Namespace.dropout Examples.args_regression) false ms.
Proof.
  apply (head_dropout_before_linear (T := Examples.RT) Examples.args_regression
           (Namespace.set_output_size 3 Examples.args_regression)
           (assembled (T := Examples.RT) Examples.args_regression tt RealTorch.ReLU)
           Examples.theta).
  reflexivity.
Defined.
